(** * BookBotAI: query routing, session cache and content analysis

    A shallow embedding of the Python sources

      - [src/config/llm_wrapper.py]   (GeminiLLM)
      - [src/analyzer/url_analyzer.py] (URLAnalyzer)
      - [src/agents/url_agent.py]      (URLAgent)
      - [src/agents/agent_system.py]   (AgentSystem)

    Python strings are modelled as [string], one [ascii] per character
    (code points below 256); dictionaries with string keys as
    [gmap string string]; exceptions by their message [str(e)]; the
    network, the HTML parser and the remote model are oracles whose
    answers may depend on the calls made so far. *)

From Stdlib Require Import ZArith QArith Lia Ascii String.
From stdpp Require Import base option list gmap strings.

Local Open Scope Z_scope.

(** ** Python string primitives *)

Module Py.

(** [len(s)] *)
Definition len (s : string) : Z := Z.of_nat (String.length s).

(** Truthiness of a [str]: the empty string is falsy. *)
Definition truthy (s : string) : bool :=
  match s with EmptyString => false | String _ _ => true end.

(** Truthiness of an [Optional[str]]: [None] and [""] are falsy. *)
Definition truthy_opt (o : option string) : bool :=
  match o with Some s => truthy s | None => false end.

Fixpoint str_take (n : nat) (s : string) : string :=
  match n, s with
  | S n', String c s' => String c (str_take n' s')
  | _, _ => EmptyString
  end.

Fixpoint str_drop (n : nat) (s : string) : string :=
  match n, s with
  | S n', String _ s' => str_drop n' s'
  | _, _ => s
  end.

(** Normalisation of one slice bound against a string of length [l]:
    a negative bound counts from the end, and the result is clamped
    to [0..l]. *)
Definition clamp (l i : Z) : Z :=
  let j := if i <? 0 then i + l else i in
  Z.max 0 (Z.min l j).

(** [s[lo:hi]] with step 1; an omitted bound is [None]. *)
Definition slice (s : string) (lo hi : option Z) : string :=
  let l := len s in
  let a := match lo with Some i => clamp l i | None => 0 end in
  let b := match hi with Some i => clamp l i | None => l end in
  str_take (Z.to_nat (b - a)) (str_drop (Z.to_nat a) s).

(** [needle in s] *)
Fixpoint str_in (needle s : string) : bool :=
  String.prefix needle s ||
  match s with
  | EmptyString => false
  | String _ s' => str_in needle s'
  end.

(** [str.lower()] on code points below 256: A-Z and the Latin-1
    capitals (192-222 except the multiplication sign 215). *)
Definition lower_char (c : ascii) : ascii :=
  let n := N_of_ascii c in
  if ((65 <=? n) && (n <=? 90))%N then ascii_of_N (n + 32)
  else if ((192 <=? n) && (n <=? 222) && negb (n =? 215))%N
       then ascii_of_N (n + 32)
  else c.

Fixpoint lower (s : string) : string :=
  match s with
  | EmptyString => EmptyString
  | String c s' => String (lower_char c) (lower s')
  end.

(** [str.isspace()] for one character below 256. *)
Definition is_space (c : ascii) : bool :=
  let n := N_of_ascii c in
  (((9 <=? n) && (n <=? 13)) || ((28 <=? n) && (n <=? 32))
   || (n =? 133) || (n =? 160))%N.

Fixpoint lstrip (s : string) : string :=
  match s with
  | String c s' => if is_space c then lstrip s' else s
  | EmptyString => EmptyString
  end.

(** [rstrip]: a character is kept when it is not a space or when
    something remains to its right. *)
Fixpoint rstrip (s : string) : string :=
  match s with
  | EmptyString => EmptyString
  | String c s' =>
      match rstrip s' with
      | EmptyString => if is_space c then EmptyString else String c EmptyString
      | r => String c r
      end
  end.

(** [str.strip()] *)
Definition strip (s : string) : string := rstrip (lstrip s).

(** Line boundaries of [str.splitlines()] below 256: LF, VT, FF, CR,
    FS, GS, RS and NEL; CR LF counts as one boundary. *)
Definition is_linebreak (c : ascii) : bool :=
  let n := N_of_ascii c in
  (((10 <=? n) && (n <=? 13)) || ((28 <=? n) && (n <=? 30)) || (n =? 133))%N.

(** [splitlines_aux after_cr cur s]: [cur] is the line being read,
    reversed; [after_cr] says that the previous character was a CR,
    so that a LF now belongs to the same boundary. *)
Fixpoint splitlines_aux (after_cr : bool) (cur : string) (s : string)
  : list string :=
  match s with
  | EmptyString =>
      match cur with EmptyString => [] | _ => [String.rev cur] end
  | String c s' =>
      if after_cr && Ascii.eqb c "010" then splitlines_aux false cur s'
      else if is_linebreak c
           then String.rev cur :: splitlines_aux (Ascii.eqb c "013") EmptyString s'
           else splitlines_aux false (String c cur) s'
  end.

(** [str.splitlines()] *)
Definition splitlines (s : string) : list string :=
  splitlines_aux false EmptyString s.

(** [s.split("  ")]: cut at each run of two spaces, left to right. *)
Fixpoint split2_aux (cur : string) (s : string) : list string :=
  match s with
  | EmptyString => [String.rev cur]
  | String " " (String " " s') => String.rev cur :: split2_aux EmptyString s'
  | String c s' => split2_aux (String c cur) s'
  end.

Definition split2 (s : string) : list string := split2_aux EmptyString s.

(** [sep.join(parts)] *)
Fixpoint join (sep : string) (parts : list string) : string :=
  match parts with
  | [] => EmptyString
  | [p] => p
  | p :: ps => p +:+ sep +:+ join sep ps
  end.

(** ASCII digits, the class [\d] below 256. *)
Definition is_digit (c : ascii) : bool :=
  let n := N_of_ascii c in ((48 <=? n) && (n <=? 57))%N.

(** [re.search(r"\d{4}", s)]: the leftmost run of four digits. *)
Fixpoint search_4digits (s : string) : option string :=
  match s with
  | String a (String b (String c (String d _)) as s') =>
      if is_digit a && is_digit b && is_digit c && is_digit d
      then Some (String a (String b (String c (String d EmptyString))))
      else search_4digits s'
  | _ => None
  end.

(** Python's true division of two ints and [int()] of the result.
    The source computes in double precision; the model computes the
    exact quotient.  For the lengths a string can have the two agree:
    [len/2] is exact and the difference taken below has fractional
    part 1/3 or 5/6, far from the next integer. *)
Definition truediv (a b : Z) : Q := (inject_Z a / inject_Z b)%Q.

(** [int(q)] truncates towards zero. *)
Definition int (q : Q) : Z := Z.quot (Qnum q) (Z.pos (Qden q)).

End Py.

(** ** Exceptions and state

    A computation runs on a state, may change it, and either returns a
    value or raises; what it changed before raising stays changed. *)

Definition exn := string.

Inductive outcome (A : Type) : Type :=
| Ret (a : A)
| Raise (e : exn).
Arguments Ret {A} a.
Arguments Raise {A} e.

Definition M (S A : Type) : Type := S -> outcome A * S.

Definition ret {S A} (a : A) : M S A := fun s => (Ret a, s).

Definition raise {S A} (e : exn) : M S A := fun s => (Raise e, s).

Definition bind {S A B} (m : M S A) (k : A -> M S B) : M S B :=
  fun s =>
    match m s with
    | (Ret a, s') => k a s'
    | (Raise e, s') => (Raise e, s')
    end.

(** The value an outcome carries, [d] when it is an exception. *)
Definition value_or {A} (d : A) (o : outcome A) : A :=
  match o with
  | Ret a => a
  | Raise _ => d
  end.

(** [try: m except Exception as e: h e] *)
Definition try_except {S A} (m : M S A) (h : exn -> M S A) : M S A :=
  fun s =>
    match m s with
    | (Ret a, s') => (Ret a, s')
    | (Raise e, s') => h e s'
    end.

Notation "'let*' x ':=' m 'in' k" := (bind m (fun x => k))
  (at level 10, x pattern, m at level 100, k at level 200).

(** Python dictionaries with string keys and string values. *)
Abbreviation dict := (gmap string string).

(** [d.get(key, default)] *)
Definition dict_get (d : dict) (key default : string) : string :=
  match d !! key with Some v => v | None => default end.

(** [key in d] *)
Definition dict_has (d : dict) (key : string) : bool :=
  bool_decide (is_Some (d !! key)).

(** [{**a, **b}]: keys of [b] win. *)
Definition dict_merge (a b : dict) : dict := b ∪ a.

(** Truthiness of an optional dictionary: [None] and [{}] are falsy. *)
Definition dict_truthy (o : option dict) : bool :=
  match o with
  | Some d => negb (bool_decide (d = ∅))
  | None => false
  end.

(** ** The outside world

    What the program can observe of its own effects: the URLs it
    requested, the prompts it sent to the model and the lines it
    printed, newest first. *)

Record World : Type := mkWorld {
  http_log : list string;
  llm_log : list string;
  stdout : list string
}.

Definition W (A : Type) : Type := M World A.

(** [print(msg)] *)
Definition print (msg : string) : W unit :=
  fun w => (Ret tt, mkWorld (http_log w) (llm_log w) (msg :: stdout w)).

(** A link of the parsed page: its text and its [href] attribute. *)
Record Anchor : Type := mkAnchor {
  a_text : string;
  a_href : option string
}.

(** What the program reads off a parsed page ([BeautifulSoup]):
    - [page_text]: [soup.get_text()] once script and style are removed;
    - [h1_name]: text of [soup.find("h1", {"itemprop": "name"})];
    - [a_creator]: text of [soup.find("a", {"itemprop": "creator"})];
    - [tr_language]: whether a [tr] with string "Language" exists, and
      the text of the [td] that follows it, if any;
    - [th_release]: the same for the [th] with string "Release Date";
    - [anchors]: [soup.find_all("a")] in document order. *)
Record Page : Type := mkPage {
  page_text : string;
  h1_name : option string;
  a_creator : option string;
  tr_language : option (option string);
  th_release : option (option string);
  anchors : list Anchor
}.

(** The network and parser: the answer to a request may depend on the
    requests made before it. *)
Class Web : Type := {
  fetch : list string -> string -> outcome Page
}.

(** The language model as the analyzer and the agent use it: an object
    with [invoke], obtained from [get_gemini_llm]. *)
Class LLM : Type := {
  (** constructing the client; raises when it cannot be configured *)
  get_llm : W unit;
  (** [llm.invoke(prompt)] *)
  invoke : string -> W string
}.

(** ** [src/config/llm_wrapper.py] *)

(** The shapes of answer that [GeminiLLM._call] tells apart. *)
Inductive Response : Type :=
| RespText (text : string)
  (** [hasattr(response, 'text')] *)
| RespParts (parts : list (option string))
  (** [hasattr(response, 'parts')]; a part has a text or not *)
| RespOther (repr : string).
  (** neither; [repr] is [str(response)] *)

(** The Gemini SDK and the process environment. *)
Class GenAI : Type := {
  (** [os.environ.get("GEMINI_API_KEY", "")] *)
  gemini_api_key : string;
  (** [GenerativeModel(...).generate_content(prompt)], given the
      prompts sent before *)
  generate_content : list string -> string -> outcome Response
}.

Module GeminiLLM.
Section GeminiLLM.
Context `{GenAI}.

(** [GeminiLLM.__init__] *)
Definition __init__ : W unit :=
  if negb (Py.truthy gemini_api_key)
  then raise "GEMINI_API_KEY environment variable not set"
  else ret tt.

(** The request itself: it is recorded in [llm_log]. *)
Definition model_generate_content (prompt : string) : W Response :=
  fun w =>
    (generate_content (llm_log w) prompt,
     mkWorld (http_log w) (prompt :: llm_log w) (stdout w)).

(** [''.join(part.text for part in response.parts if hasattr(part, 'text'))] *)
Definition join_parts (parts : list (option string)) : string :=
  Py.join "" (omap id parts).

(** [GeminiLLM._call]; the generation parameters (temperature 1.0,
    top_p 0.95, top_k 40, max_output_tokens 8192) are constants of
    the request and are left out. *)
Definition _call (prompt : string) : W string :=
  try_except
    (let* response := model_generate_content prompt in
     match response with
     | RespText text => ret text
     | RespParts parts => ret (join_parts parts)
     | RespOther repr => ret repr
     end)
    (fun e =>
       let error_msg := "Error calling Gemini API: " +:+ e in
       let* _ := print error_msg in
       ret error_msg).

(** [get_gemini_llm] builds a [GeminiLLM]; LangChain's [invoke]
    hands the prompt to [_call] and returns its string. *)
#[export] Instance gemini_llm : LLM := {
  get_llm := __init__;
  invoke := _call
}.

End GeminiLLM.
End GeminiLLM.

(** ** [src/analyzer/url_analyzer.py] *)

Definition nl : string := String "010" EmptyString.
Definition dq : string := String "034" EmptyString.

Module URLAnalyzer.
Section URLAnalyzer.
Context `{Web} `{LLM}.

(** [self.session.get(url)] followed by [BeautifulSoup(response.text)];
    the request is recorded in [http_log]. *)
Definition session_get (url : string) : W Page :=
  fun w =>
    (fetch (http_log w) url,
     mkWorld (url :: http_log w) (llm_log w) (stdout w)).

(** [URLAnalyzer.extract_text_from_url] *)
Definition extract_text_from_url (url : string) : W string :=
  try_except
    (let* soup := session_get url in
     let text := page_text soup in
     let lines := map Py.strip (Py.splitlines text) in
     let chunks := map Py.strip (concat (map Py.split2 lines)) in
     let text := Py.join nl (filter (fun chunk => Py.truthy chunk = true) chunks) in
     ret text)
    (fun e => ret ("Error extracting content from URL: " +:+ e)).

(** [URLAnalyzer._extract_metadata_from_url] *)
Definition _extract_metadata_from_url (url : string) : W dict :=
  try_except
    (let* soup := session_get url in
     let metadata : dict :=
       {[ "title" := ""; "author" := ""; "language" := "English"; "year" := "" ]} in
     let metadata :=
       match h1_name soup with
       | Some text => <["title" := Py.strip text]> metadata
       | None => metadata
       end in
     let metadata :=
       match a_creator soup with
       | Some text => <["author" := Py.strip text]> metadata
       | None => metadata
       end in
     let metadata :=
       match tr_language soup with
       | Some (Some td) => <["language" := Py.strip td]> metadata
       | _ => metadata
       end in
     let metadata :=
       match th_release soup with
       | Some (Some td) =>
           let year_text := Py.strip td in
           match Py.search_4digits year_text with
           | Some year => <["year" := year]> metadata
           | None => metadata
           end
       | _ => metadata
       end in
     ret metadata)
    (fun e =>
       let* _ := print ("Error extracting metadata: " +:+ e) in
       ret ({[ "title" := "Unknown Title"; "author" := "Unknown Author";
               "language" := "Unknown"; "year" := "Unknown" ]} : dict)).

(** [a_tag["href"]]: a [KeyError] when the attribute is missing. *)
Definition href (a_tag : Anchor) : W string :=
  match a_href a_tag with
  | Some h => ret h
  | None => raise "'href'"
  end.

(** [URLAnalyzer._get_content_url] *)
Definition _get_content_url (url : string) : W (option string) :=
  try_except
    (let* soup := session_get url in
     match List.find (fun a_tag => Py.str_in "Plain Text UTF-8" (a_text a_tag))
                     (anchors soup) with
     | Some a_tag => let* h := href a_tag in ret (Some h)
     | None =>
         match List.find
                 (fun a_tag => Py.str_in ".txt" (default "" (a_href a_tag)))
                 (anchors soup) with
         | Some a_tag => let* h := href a_tag in ret (Some h)
         | None => ret None
         end
     end)
    (fun e =>
       let* _ := print ("Error getting content URL: " +:+ e) in
       ret None).

Definition max_content_length : Z := 16000.

(** The three samples taken from a long text: [beginning], [middle]
    (with its [middle_start]) and [end]. *)
Definition beginning (content : string) : string :=
  Py.slice content None (Some (Py.int (Py.truediv max_content_length 3))).

Definition middle_start (content : string) : Z :=
  Py.int (Py.truediv (Py.len content) 2 - Py.truediv max_content_length 6)%Q.

Definition middle (content : string) : string :=
  Py.slice content (Some (middle_start content))
    (Some (middle_start content + Py.int (Py.truediv max_content_length 3))).

Definition end_ (content : string) : string :=
  Py.slice content (Some (- Py.int (Py.truediv max_content_length 3))) None.

Definition middle_marker : string :=
  nl +:+ nl +:+ "[...middle section omitted...]" +:+ nl +:+ nl.

Definition later_marker : string :=
  nl +:+ nl +:+ "[...later section omitted...]" +:+ nl +:+ nl.

(** [content_sample] of [_analyze_content_with_gemini]. *)
Definition content_sample (content : string) : string :=
  if Py.len content >? max_content_length then
    beginning content +:+ middle_marker +:+ middle content +:+
    later_marker +:+ end_ content
  else content.

Definition summary_prompt (title author content_sample : string) : string :=
  nl +:+
  "            Please provide a comprehensive summary of the book " +:+ dq +:+ title +:+ dq +:+ " by " +:+ author +:+ "." +:+ nl +:+
  "            " +:+ nl +:+
  "            Include the following in your summary:" +:+ nl +:+
  "            1. Main plot points and narrative arc" +:+ nl +:+
  "            2. Key characters and their development" +:+ nl +:+
  "            3. Major themes and motifs" +:+ nl +:+
  "            4. Writing style and tone" +:+ nl +:+
  "            5. Historical or cultural context (if relevant)" +:+ nl +:+
  "            " +:+ nl +:+
  "            Make the summary detailed enough to give a good understanding of the book, but concise enough to be readable in a few minutes." +:+ nl +:+
  "            " +:+ nl +:+
  "            Here is a sample of the book content to summarize:" +:+ nl +:+
  "            " +:+ content_sample +:+ nl +:+
  "            " +:+ nl +:+
  "            Provide a well-structured, engaging summary that captures the essence of the book." +:+ nl +:+
  "            ".

Definition genre_prompt (title author excerpt : string) : string :=
  nl +:+
  "            Based on the following excerpt from " +:+ dq +:+ title +:+ dq +:+ " by " +:+ author +:+ ", classify the genre of this book." +:+ nl +:+
  "            Consider elements such as setting, themes, style, and plot elements." +:+ nl +:+
  "            Provide a single primary genre and up to three subgenres if applicable." +:+ nl +:+
  "            " +:+ nl +:+
  "            Excerpt:" +:+ nl +:+
  "            " +:+ excerpt +:+ nl +:+
  "            " +:+ nl +:+
  "            Format your response as: Primary Genre: [genre], Subgenres: [subgenre1, subgenre2, subgenre3]" +:+ nl +:+
  "            ".

(** [URLAnalyzer._analyze_content_with_gemini] *)
Definition _analyze_content_with_gemini (content : string) (metadata : dict)
  : W dict :=
  let title := dict_get metadata "title" "Unknown Title" in
  let author := dict_get metadata "author" "Unknown Author" in
  let content_sample := content_sample content in
  try_except
    (let* summary := invoke (summary_prompt title author content_sample) in
     let* genre :=
       invoke (genre_prompt title author
                 (Py.slice content_sample None (Some 8000))) in
     ret ({[ "summary" := summary; "genre" := genre;
             "content" := content_sample ]} : dict))
    (fun e =>
       ret ({[ "summary" := "Error generating summary: " +:+ e;
               "genre" := "Unknown";
               "content" := Py.slice content_sample None (Some 4000) ]} : dict)).

Definition not_gutenberg_error : string :=
  "This URL does not appear to be from Project Gutenberg. Please provide a valid Project Gutenberg URL.".

(** [URLAnalyzer.analyze_url] *)
Definition analyze_url (url : string) : W dict :=
  if negb (Py.str_in "gutenberg.org" url) then
    ret ({[ "error" := not_gutenberg_error ]} : dict)
  else
    try_except
      (let* metadata := _extract_metadata_from_url url in
       let* content_url := _get_content_url url in
       let* content :=
         match content_url with
         | Some u => if Py.truthy u then extract_text_from_url u
                     else extract_text_from_url url
         | None => extract_text_from_url url
         end in
       let* analysis := _analyze_content_with_gemini content metadata in
       let result := <["url" := url]> (dict_merge metadata analysis) in
       ret result)
      (fun e => ret ({[ "error" := "Error analyzing URL: " +:+ e ]} : dict)).

End URLAnalyzer.
End URLAnalyzer.

(** ** [src/agents/url_agent.py] *)

Module URLAgent.
Section URLAgent.
Context `{Web} `{LLM}.

(** [URLAgent.analyze_url] *)
Definition analyze_url (url : string) : W dict :=
  URLAnalyzer.analyze_url url.

(** [URLAgent.get_book_summary] *)
Definition get_book_summary (url : string) : W string :=
  let* analysis := analyze_url url in
  ret (dict_get analysis "summary" "Unable to generate summary").

(** [URLAgent.classify_genre] *)
Definition classify_genre (url : string) : W string :=
  let* analysis := analyze_url url in
  ret (dict_get analysis "genre" "Unable to classify genre").

Definition chat_prompt (title author query content : string) : string :=
  nl +:+
  "        You are an expert on the book " +:+ dq +:+ title +:+ dq +:+ " by " +:+ author +:+ ". A user has asked the following question about the book:" +:+ nl +:+
  "        " +:+ nl +:+
  "        " +:+ dq +:+ query +:+ dq +:+ nl +:+
  "        " +:+ nl +:+
  "        Please provide a detailed and accurate response based on the book's content. If the question cannot be answered based on the book content, explain why and provide general information that might be helpful." +:+ nl +:+
  "        " +:+ nl +:+
  "        Here are relevant sections from the book to reference:" +:+ nl +:+
  "        " +:+ content +:+ nl +:+
  "        " +:+ nl +:+
  "        Provide a thoughtful, well-structured response that directly addresses the user's question with specific references to the book content where possible." +:+ nl +:+
  "        ".

(** [smaller_content] of the fallback: [content[:8000] + "..."]. *)
Definition smaller_content (content : string) : string :=
  Py.slice content None (Some 8000) +:+ "...".

Definition fallback_prompt (title author query content : string) : string :=
  "Based on this excerpt from " +:+ dq +:+ title +:+ dq +:+ " by " +:+ author +:+
  ", please answer: " +:+ dq +:+ query +:+ dq +:+ ". Excerpt: " +:+
  smaller_content content.

Definition length_limit_apology (title : string) : string :=
  "I'm sorry, but I couldn't process your query about '" +:+ title +:+
  "' due to content length limitations. Please try asking a more specific question.".

(** The [except Exception as e] branch of [chat_with_url].  [llm_bound]
    tells whether the assignment [llm = self._get_llm()] of the [try]
    block was completed: if not, [llm.invoke] in the fallback raises an
    [UnboundLocalError], which the bare [except] catches. *)
Definition chat_fallback (llm_bound : bool)
    (title author query content : string) (e : exn) : W string :=
  if Py.len content >? 8000 then
    try_except
      (if llm_bound
       then invoke (fallback_prompt title author query content)
       else raise "cannot access local variable 'llm' where it is not associated with a value")
      (fun _ => ret (length_limit_apology title))
  else
    ret ("Error processing your query about '" +:+ title +:+ "': " +:+ e).

(** [URLAgent.chat_with_url] *)
Definition chat_with_url (url query : string) : W string :=
  let* analysis := analyze_url url in
  if dict_has analysis "error" then
    ret ("Error: " +:+ dict_get analysis "error" "")
  else
    let title := dict_get analysis "title" "Unknown Title" in
    let author := dict_get analysis "author" "Unknown" in
    let content := dict_get analysis "content" "" in
    if negb (Py.truthy content) then
      ret ("No content available for URL: " +:+ url)
    else
      let prompt := chat_prompt title author query content in
      fun w =>
        match get_llm w with
        | (Ret _, w1) =>
            try_except (invoke prompt)
              (chat_fallback true title author query content) w1
        | (Raise e, w1) =>
            chat_fallback false title author query content e w1
        end.

End URLAgent.
End URLAgent.

(** ** [src/agents/agent_system.py] *)

(** The two attributes of [AgentSystem] that change after
    construction; [Self.current_url self] reads [self.current_url]. *)
Module Self.
Record t : Type := mk {
  current_url : option string;
  current_analysis : option dict
}.
End Self.

Abbreviation Session := Self.t.
Abbreviation mkSession := Self.mk.

Record State : Type := mkState {
  session : Session;
  world : World
}.

(** A computation on the world alone, run inside the agent system. *)
Definition lift {A} (m : W A) : M State A :=
  fun s =>
    match m (world s) with
    | (r, w') => (r, mkState (session s) w')
    end.

Definition get_session : M State Session :=
  fun s => (Ret (session s), s).

Definition set_current_url (u : option string) : M State unit :=
  fun s =>
    (Ret tt, mkState (mkSession u (Self.current_analysis (session s))) (world s)).

Definition set_current_analysis (a : option dict) : M State unit :=
  fun s =>
    (Ret tt, mkState (mkSession (Self.current_url (session s)) a) (world s)).

Module AgentSystem.
Section AgentSystem.
Context `{Web} `{LLM}.

(** The attributes as [AgentSystem.__init__] leaves them. *)
Definition __init__ : Session := mkSession None None.

(** [AgentSystem.analyze_url] *)
Definition analyze_url (url : string) : M State dict :=
  let* _ := set_current_url (Some url) in
  let* analysis := lift (URLAgent.analyze_url url) in
  let* _ := set_current_analysis (Some analysis) in
  ret analysis.

(** [AgentSystem.get_book_summary] *)
Definition get_book_summary (url : string) : M State string :=
  let* self := get_session in
  if bool_decide (Some url = Self.current_url self)
     && dict_truthy (Self.current_analysis self)
  then ret (dict_get (default ∅ (Self.current_analysis self))
              "summary" "Unable to generate summary")
  else lift (URLAgent.get_book_summary url).

(** [AgentSystem.classify_genre] *)
Definition classify_genre (url : string) : M State string :=
  let* self := get_session in
  if bool_decide (Some url = Self.current_url self)
     && dict_truthy (Self.current_analysis self)
  then ret (dict_get (default ∅ (Self.current_analysis self))
              "genre" "Unable to classify genre")
  else lift (URLAgent.classify_genre url).

(** [AgentSystem.chat_with_url] *)
Definition chat_with_url (url query : string) : M State string :=
  lift (URLAgent.chat_with_url url query).

Definition book_references : list string :=
  ["the book"; "this book"; "current book"].

(** [AgentSystem._extract_url_reference]; [current_url] is the
    argument, [self.current_url] the attribute. *)
Definition _extract_url_reference (query : string)
    (current_url : option string) : M State (option string) :=
  let* self := get_session in
  let query_lower := Py.lower query in
  let uses_generic_reference :=
    existsb (fun ref => Py.str_in ref query_lower) book_references in
  if uses_generic_reference && Py.truthy_opt current_url then
    ret current_url
  else if negb (Py.truthy_opt current_url)
          && Py.truthy_opt (Self.current_url self) then
    ret (Self.current_url self)
  else
    ret current_url.

(** [self.current_analysis.get("title", "Unknown Title") if
    self.current_analysis else "Unknown Title"] *)
Definition title_of (self : Session) : string :=
  if dict_truthy (Self.current_analysis self)
  then dict_get (default ∅ (Self.current_analysis self)) "title" "Unknown Title"
  else "Unknown Title".

Definition current_title : M State string :=
  let* self := get_session in
  ret (title_of self).

(** [AgentSystem.process_user_query] *)
Definition process_user_query (query : string) (current_url : option string)
  : M State dict :=
  let query_lower := Py.lower query in
  let* url_to_use := _extract_url_reference query current_url in
  match url_to_use with
  | None =>
      ret ({[ "type" := "error";
              "content" := "Please provide a Project Gutenberg URL first." ]} : dict)
  | Some url_to_use =>
      if negb (Py.truthy url_to_use) then
        ret ({[ "type" := "error";
                "content" := "Please provide a Project Gutenberg URL first." ]} : dict)
      else if Py.str_in "summarize" query_lower || Py.str_in "summary" query_lower then
        if Py.str_in "summarize the" query_lower
           || Py.str_in "summarize this" query_lower
           || bool_decide (query_lower = "summarize")
        then
          let* summary := get_book_summary url_to_use in
          let* title := current_title in
          ret ({[ "type" := "summary"; "title" := title; "content" := summary ]} : dict)
        else
          let* summary := get_book_summary url_to_use in
          let* title := current_title in
          ret ({[ "type" := "summary"; "title" := title; "content" := summary ]} : dict)
      else if Py.str_in "genre" query_lower || Py.str_in "classify" query_lower then
        let* genre := classify_genre url_to_use in
        let* title := current_title in
        ret ({[ "type" := "genre"; "title" := title; "content" := genre ]} : dict)
      else
        let* response := chat_with_url url_to_use query in
        let* title := current_title in
        ret ({[ "type" := "chat"; "title" := title; "query" := query;
                "content" := response ]} : dict)
  end.

End AgentSystem.
End AgentSystem.

(** ** The operations of a session and its reachable states *)

Section Reachable.
Context `{Web} `{LLM}.

(** The methods of [AgentSystem]. *)
Inductive Op : Type :=
| OpAnalyze (url : string)
| OpSummary (url : string)
| OpGenre (url : string)
| OpChat (url query : string)
| OpResolve (query : string) (current_url : option string)
| OpQuery (query : string) (current_url : option string).

(** The state an operation leaves, whether it returned or raised. *)
Definition run_op (op : Op) (s : State) : State :=
  match op with
  | OpAnalyze url => snd (AgentSystem.analyze_url url s)
  | OpSummary url => snd (AgentSystem.get_book_summary url s)
  | OpGenre url => snd (AgentSystem.classify_genre url s)
  | OpChat url query => snd (AgentSystem.chat_with_url url query s)
  | OpResolve query cur => snd (AgentSystem._extract_url_reference query cur s)
  | OpQuery query cur => snd (AgentSystem.process_user_query query cur s)
  end.

(** States reached from a freshly constructed system, in any world. *)
Inductive reachable : State -> Prop :=
| reachable_init (w : World) : reachable (mkState AgentSystem.__init__ w)
| reachable_step (op : Op) (s : State) :
    reachable s -> reachable (run_op op s).

(** [r] is what the Content Analyzer returned for [url] in some world. *)
Definition produced_for (url : string) (r : dict) : Prop :=
  exists w w', URLAnalyzer.analyze_url url w = (Ret r, w').

(** No stale pairing: a cached analysis belongs to the cached URL. *)
Definition paired (sess : Session) : Prop :=
  match Self.current_analysis sess with
  | Some r =>
      exists url, Self.current_url sess = Some url /\ produced_for url r
  | None => True
  end.

End Reachable.

(** ** Notions taken from the specification's wording *)

(** A case-insensitive occurrence of the lowercase word [needle]. *)
Definition contains_ci (needle query : string) : Prop :=
  exists pre mid post,
    query = pre +:+ mid +:+ post /\ Py.lower mid = needle.

(** The intent rules as the specification lists them, first match
    first. *)
Definition spec_intent (query : string) : string :=
  let q := Py.lower query in
  if Py.str_in "summarize" q || Py.str_in "summary" q then "summary"
  else if Py.str_in "genre" q || Py.str_in "classify" q then "genre"
  else "chat".

(** The text after the first occurrence of [sep], if any. *)
Fixpoint str_after (sep s : string) : option string :=
  if String.prefix sep s then Some (Py.str_drop (String.length sep) s)
  else match s with
       | EmptyString => None
       | String _ s' => str_after sep s'
       end.

(** The text before the first character satisfying [stop]. *)
Fixpoint str_until (stop : ascii -> bool) (s : string) : string :=
  match s with
  | EmptyString => EmptyString
  | String c s' => if stop c then EmptyString else String c (str_until stop s')
  end.

(** The host of a URL: what stands between the scheme and the first of
    [/], [?], [#], without user information and port, in lower case. *)
Definition url_host (url : string) : string :=
  let rest := default url (str_after "://" url) in
  let authority :=
    str_until (fun c => Ascii.eqb c "/" || Ascii.eqb c "?" || Ascii.eqb c "#") rest in
  let hostport := default authority (str_after "@" authority) in
  Py.lower (str_until (fun c => Ascii.eqb c ":") hostport).

(** ** Collaborators used in the examples *)

Module Stub.

Fixpoint str_repeat (c : ascii) (n : nat) : string :=
  match n with
  | O => EmptyString
  | S n' => String c (str_repeat c n')
  end.

(** A site that answers every request with the same page. *)
Definition web_const (p : Page) : Web := {| fetch := fun _ _ => Ret p |}.

(** A book page whose text is [text]. *)
Definition book_page (text : string) : Page :=
  mkPage text (Some "Alice's Adventures in Wonderland")
    (Some "Lewis Carroll") (Some (Some "English"))
    (Some (Some "June 27, 2008")) [].

(** A model client scripted by the number of prompts already sent. *)
Definition llm_script (answer : nat -> outcome string) : LLM := {|
  get_llm := ret tt;
  invoke := fun prompt w =>
    (answer (List.length (llm_log w)),
     mkWorld (http_log w) (prompt :: llm_log w) (stdout w))
|}.

(** A model that always answers. *)
Definition llm_ok : LLM := llm_script (fun _ => Ret "A fine book.").

(** A Gemini backend whose every request raises. *)
Definition genai_down : GenAI := {|
  gemini_api_key := "key";
  generate_content := fun _ _ => Raise "503 unavailable"
|}.

Definition w0 : World := mkWorld [] [] [].

Definition alice : string := "https://www.gutenberg.org/ebooks/11".
Definition frankenstein : string := "https://www.gutenberg.org/ebooks/84".

End Stub.

(** ** [app.py]

    The Streamlit page.  What the page shows is recorded as a list of
    UI calls, newest first; the values of the widgets of one run of
    the script are its inputs. *)

Inductive Ui : Type :=
| UiTitle (text : string)        (** [st.title], [st.sidebar.title] *)
| UiImage (src : string)         (** [st.sidebar.image] *)
| UiHeader (text : string)       (** [st.header], [st.sidebar.header] *)
| UiSubheader (text : string)    (** [st.subheader] *)
| UiWrite (text : string)        (** [st.write] *)
| UiMarkdown (text : string)     (** [st.markdown] *)
| UiError (text : string)        (** [st.error] *)
| UiSuccess (text : string)      (** [st.success] *)
| UiInfo (text : string)         (** [st.info] *)
| UiSpinner (text : string)      (** [with st.spinner(text)] *)
| UiExpander (label : string).   (** [with st.expander(label)] *)

(** [st.session_state] and the page. *)
Module App.
Record t : Type := mk {
  agent_system : State;
  current_url : option string;
  current_analysis : option dict;
  screen : list Ui
}.
End App.

(** Which raised exceptions are [TypeError]s. *)
Class ExceptionTypes : Type := {
  is_type_error : exn -> bool
}.

(** The widgets of one run: the sidebar text input and its button, the
    query text area and its button. *)
Record Inputs : Type := mkInputs {
  book_url : string;
  analyze_clicked : bool;
  user_query : string;
  process_clicked : bool
}.

Module Streamlit.
Section Streamlit.
Context `{Web} `{LLM} `{ExceptionTypes}.

(** One UI call. *)
Definition st (u : Ui) : M App.t unit :=
  fun app =>
    (Ret tt,
     App.mk (App.agent_system app) (App.current_url app)
       (App.current_analysis app) (u :: App.screen app)).

(** A method of [st.session_state.agent_system]. *)
Definition agent {A} (m : M State A) : M App.t A :=
  fun app =>
    match m (App.agent_system app) with
    | (r, s') =>
        (r, App.mk s' (App.current_url app) (App.current_analysis app)
              (App.screen app))
    end.

Definition get_state : M App.t App.t := fun app => (Ret app, app).

Definition set_current_url (u : option string) : M App.t unit :=
  fun app =>
    (Ret tt,
     App.mk (App.agent_system app) u (App.current_analysis app)
       (App.screen app)).

Definition set_current_analysis (a : option dict) : M App.t unit :=
  fun app =>
    (Ret tt,
     App.mk (App.agent_system app) (App.current_url app) a (App.screen app)).

(** [analyze_url] of [app.py] *)
Definition analyze_url (url : string) : M App.t unit :=
  if negb (String.prefix "https://www.gutenberg.org" url) then
    st (UiError "Please enter a valid Project Gutenberg book URL (starting with https://www.gutenberg.org)")
  else
    let* _ := st (UiSpinner ("Analyzing content from " +:+ url +:+ "...")) in
    let* analysis := agent (AgentSystem.analyze_url url) in
    if dict_has analysis "error" then
      st (UiError ("Failed to analyze the URL: " +:+ dict_get analysis "error" ""))
    else
      let* _ := set_current_url (Some url) in
      let* _ := set_current_analysis (Some analysis) in
      st (UiSuccess ("Successfully analyzed '"
                     +:+ dict_get analysis "title" "Unknown" +:+ "' by "
                     +:+ dict_get analysis "author" "Unknown" +:+ "!")).

(** The content preview of [display_analysis_info]. *)
Definition content_preview (content : string) : string :=
  if Py.len content >? 1000
  then Py.slice content None (Some 1000) +:+ "..."
  else content.

(** [display_analysis_info] *)
Definition display_analysis_info (analysis : dict) : M App.t unit :=
  let* _ := st (UiSubheader (dict_get analysis "title" "Unknown Title")) in
  let* _ := st (UiWrite ("**Author:** " +:+ dict_get analysis "author" "Unknown")) in
  let* _ := st (UiWrite ("**Genre:** " +:+ dict_get analysis "genre" "Unknown")) in
  let* _ := st (UiWrite ("**Language:** " +:+ dict_get analysis "language" "Unknown")) in
  let* _ := st (UiWrite ("**Year:** " +:+ dict_get analysis "year" "Unknown")) in
  let* _ := st (UiWrite ("**URL:** " +:+ dict_get analysis "url" "Unknown")) in
  let* _ :=
    if dict_has analysis "summary" && Py.truthy (dict_get analysis "summary" "")
    then
      let* _ := st (UiExpander "Summary") in
      st (UiWrite (dict_get analysis "summary" ""))
    else ret tt in
  if dict_has analysis "content" && Py.truthy (dict_get analysis "content" "")
  then
    let* _ := st (UiExpander "Content Preview") in
    st (UiWrite (content_preview (dict_get analysis "content" "")))
  else ret tt.

(** [process_user_query] of [app.py].  The agent's answer is always a
    dictionary here, so the test [result is None] is left out. *)
Definition process_user_query (query : string) (current_url : option string)
  : M App.t unit :=
  let* _ := st (UiSpinner "Processing your query...") in
  try_except
    (let* result := agent (AgentSystem.process_user_query query current_url) in
     let result_type := dict_get result "type" "unknown" in
     let result_content := dict_get result "content" "No content available" in
     let result_title := dict_get result "title" "Unknown" in
     if bool_decide (result_type = "error") then
       st (UiError result_content)
     else if bool_decide (result_type = "summary") then
       let* _ := st (UiSubheader ("Summary of '" +:+ result_title +:+ "'")) in
       st (UiWrite result_content)
     else if bool_decide (result_type = "genre") then
       let* _ := st (UiSubheader ("Genre Classification for '" +:+ result_title +:+ "'")) in
       st (UiWrite result_content)
     else if bool_decide (result_type = "chat") then
       let* _ := st (UiSubheader ("Chat with '" +:+ result_title +:+ "'")) in
       let* _ := st (UiWrite ("**Question:** " +:+ dict_get result "query" "Unknown")) in
       st (UiWrite ("**Answer:** " +:+ result_content))
     else
       st (UiWrite result_content))
    (fun e =>
       if is_type_error e then
         let* _ := st (UiError "Error processing query: The AI system returned an unexpected response format. Please try a different question.") in
         st (UiInfo ("Technical details: " +:+ e))
       else
         let* _ := st (UiError ("An unexpected error occurred: " +:+ e)) in
         st (UiInfo "Please try a different question or analyze another book.")).

(** The body of the script from the sidebar on (lines 154-199). *)
Definition script (inp : Inputs) : M App.t unit :=
  let* _ := st (UiTitle "Project Gutenberg AI") in
  let* _ := st (UiImage "https://www.gutenberg.org/gutenberg/pg-logo-129x80.png") in
  let* _ := st (UiHeader "Book Analysis") in
  let* _ := if analyze_clicked inp then analyze_url (book_url inp) else ret tt in
  let* _ := st (UiTitle "📚 Project Gutenberg AI with Gemini") in
  let* state := get_state in
  let* _ :=
    if dict_truthy (App.current_analysis state) then
      let* _ := st (UiHeader "Analyzed Book") in
      let* _ := display_analysis_info (default ∅ (App.current_analysis state)) in
      let* _ := st (UiHeader "AI Agent Interaction") in
      let* _ := st (UiExpander "Example queries") in
      let* _ := st (UiMarkdown "- **Summarize this book**") in
      let* _ := st (UiMarkdown "- **What is the genre of the book?**") in
      let* _ := st (UiMarkdown "- **Who is the main character in the book?**") in
      let* _ := st (UiMarkdown "- **What are the major themes in this book?**") in
      let* _ := st (UiMarkdown "- **Tell me about the author's writing style**") in
      if process_clicked inp then
        if negb (Py.truthy (user_query inp)) then
          st (UiError "Please enter a query!")
        else
          process_user_query (user_query inp) (App.current_url state)
      else ret tt
    else
      st (UiInfo "Please enter a Project Gutenberg book URL in the sidebar and click 'Analyze This Book' to get started.") in
  let* _ := st (UiMarkdown "---") in
  let* _ := st (UiWrite "Powered by Google Gemini 2.0 Flash | Data from Project Gutenberg") in
  st (UiInfo "💡 Tip: You can refer to 'the book' or 'this book' in your queries, and the system will understand you're talking about the currently displayed book.").

(** The session state of a new browser session (lines 43-50). *)
Definition init (w : World) : App.t :=
  App.mk (mkState AgentSystem.__init__ w) None None [].

(** One run of the script: the page is drawn anew, the session state
    is kept. *)
Definition run (inp : Inputs) (app : App.t) : App.t :=
  snd (script inp
         (App.mk (App.agent_system app) (App.current_url app)
            (App.current_analysis app) [])).

(** The session states a user can bring about. *)
Inductive reachable : App.t -> Prop :=
| reachable_init (w : World) : reachable (init w)
| reachable_run (inp : Inputs) (app : App.t) :
    reachable app -> reachable (run inp app).

End Streamlit.
End Streamlit.

(** The page's copy of the current book agrees with the agent's, and a
    stored analysis is a record (no [error] key) made for the stored
    URL, which starts with the Gutenberg address. *)
Definition consistent (app : App.t) : Prop :=
  App.current_url app = Self.current_url (session (App.agent_system app)) /\
  App.current_analysis app =
    Self.current_analysis (session (App.agent_system app)) /\
  match App.current_analysis app with
  | Some r =>
      exists url,
        App.current_url app = Some url /\
        String.prefix "https://www.gutenberg.org" url = true /\
        r !! "error" = None /\ r !! "url" = Some url
  | None => App.current_url app = None
  end.

(** ** Predicates on strings used to state properties *)

(** Every character of [s] satisfies [p]. *)
Fixpoint all_chars (p : ascii -> bool) (s : string) : bool :=
  match s with
  | EmptyString => true
  | String c s' => p c && all_chars p s'
  end.

(** Four decimal digits. *)
Definition four_digits (y : string) : Prop :=
  String.length y = 4%nat /\ all_chars Py.is_digit y = true.

(** ** More collaborators for the examples *)

Module Fixture.

(** A network on which every request fails. *)
Definition web_down : Web := {| fetch := fun _ _ => Raise "connection refused" |}.

(** A Gemini backend that answers every request. *)
Definition genai_ok : GenAI := {|
  gemini_api_key := "key";
  generate_content := fun _ _ => Ret (RespText "A fine book.")
|}.

(** A process without the credential. *)
Definition genai_no_key : GenAI := {|
  gemini_api_key := "";
  generate_content := fun _ _ => Ret (RespText "A fine book.")
|}.

(** A Gemini backend scripted by the number of requests already made. *)
Definition genai_script (answer : nat -> outcome Response) : GenAI := {|
  gemini_api_key := "key";
  generate_content := fun requests _ => answer (List.length requests)
|}.


(** The two requests of the analysis are answered, the later ones
    fail. *)
Definition genai_chat_fails : GenAI :=
  genai_script (fun n => if (n <? 2)%nat then Ret (RespText "A fine book.")
                         else Raise "503 unavailable").

(** A download page: a zip link first, then the plain-text link. *)
Definition download_page : Page :=
  mkPage "" None None None None
    [ mkAnchor "Kindle" (Some "/ebooks/11.kf8.images");
      mkAnchor "Older text" (Some "/files/11/11-0.txt");
      mkAnchor "Plain Text UTF-8" (Some "/ebooks/11.txt.utf-8") ].

(** No exception is a [TypeError]. *)
Definition no_type_errors : ExceptionTypes := {| is_type_error := fun _ => false |}.

End Fixture.

(** * Properties *)

(** ** The string primitives on small inputs *)

Example ex_splitlines :
  Py.splitlines ("a" +:+ String "013" (String "010" "b") +:+ nl +:+ nl +:+ "c")
  = ["a"; "b"; ""; "c"].
Proof. reflexivity. Qed.
Example ex_split2 : Py.split2 "a   b  " = ["a"; " b"; ""].
Proof. reflexivity. Qed.
Example ex_strip : Py.strip "  a b  " = "a b".
Proof. reflexivity. Qed.
Example ex_slice :
  Py.slice "abcdef" (Some (-2)) None = "ef" /\
  Py.slice "abcdef" (Some 1) (Some 3) = "bc" /\
  Py.slice "abc" None (Some 10) = "abc".
Proof. repeat split; reflexivity. Qed.
Example ex_int :
  Py.int (Py.truediv 16000 3) = 5333 /\
  Py.int (Py.truediv 16001 2 - Py.truediv 16000 6)%Q = 5333.
Proof. split; reflexivity. Qed.
Example ex_lower :
  Py.lower "The BOOK" = "the book" /\
  Py.search_4digits "June 25, 2008 [eBook #11]" = Some "2008".
Proof. split; reflexivity. Qed.

Example ex_url_host :
  url_host "https://user@www.Gutenberg.org:80/ebooks/11?x#y" = "www.gutenberg.org".
Proof. reflexivity. Qed.

(** ** Strings *)

Lemma app_cons (c : ascii) (s t : string) :
  String c s +:+ t = String c (s +:+ t).
Proof. reflexivity. Qed.

Lemma app_nil_l (t : string) : "" +:+ t = t.
Proof. reflexivity. Qed.

Lemma app_nil_r (s : string) : s +:+ "" = s.
Proof. induction s as [|c s IH]; [reflexivity|]. rewrite app_cons, IH. reflexivity. Qed.

Lemma app_assoc_str (a b c : string) : (a +:+ b) +:+ c = a +:+ (b +:+ c).
Proof.
  induction a as [|x a IH]; [reflexivity|].
  rewrite !app_cons, IH. reflexivity.
Qed.

Lemma length_app (a b : string) :
  String.length (a +:+ b) = (String.length a + String.length b)%nat.
Proof.
  induction a as [|x a IH]; [reflexivity|].
  rewrite app_cons. simpl. rewrite IH. reflexivity.
Qed.

Lemma length_str_take (n : nat) (s : string) :
  String.length (Py.str_take n s) = Nat.min n (String.length s).
Proof.
  revert s. induction n as [|n IH]; intros [|c s]; simpl; try reflexivity.
  rewrite IH. reflexivity.
Qed.

Lemma length_str_drop (n : nat) (s : string) :
  String.length (Py.str_drop n s) = (String.length s - n)%nat.
Proof.
  revert s. induction n as [|n IH]; intros [|c s]; simpl; try reflexivity.
  apply IH.
Qed.

Lemma str_take_drop (n : nat) (s : string) :
  Py.str_take n s +:+ Py.str_drop n s = s.
Proof.
  revert s. induction n as [|n IH]; intros [|c s]; simpl; try reflexivity.
  rewrite app_cons, IH. reflexivity.
Qed.

Lemma prefix_app (p s : string) :
  String.prefix p s = true <-> exists post, s = p +:+ post.
Proof.
  revert s. induction p as [|c p IH]; intros s.
  - split; [intros _; exists s; reflexivity|intros _; destruct s; reflexivity].
  - destruct s as [|d s]; simpl.
    + split; [discriminate|intros [post Hp]; discriminate].
    + destruct (ascii_dec c d) as [->|Hne].
      * rewrite IH. split; intros [post Hp]; exists post.
        -- rewrite app_cons, <- Hp. reflexivity.
        -- rewrite app_cons in Hp. congruence.
      * split; [discriminate|].
        intros [post Hp]. rewrite app_cons in Hp. congruence.
Qed.

Lemma str_in_nil (needle : string) :
  Py.str_in needle "" = String.prefix needle "".
Proof. simpl. apply orb_false_r. Qed.

Lemma str_in_cons (needle : string) (c : ascii) (s : string) :
  Py.str_in needle (String c s) =
  String.prefix needle (String c s) || Py.str_in needle s.
Proof. reflexivity. Qed.

(** [needle in s] holds exactly when [s] splits around [needle]. *)
Lemma str_in_spec (needle s : string) :
  Py.str_in needle s = true <->
  exists pre post, s = pre +:+ needle +:+ post.
Proof.
  induction s as [|c s IH].
  - rewrite str_in_nil, prefix_app. split.
    + intros [post Hp]. exists "", post. exact Hp.
    + intros [[|x pre] [post Hp]]; [exists post; exact Hp|discriminate].
  - rewrite str_in_cons, orb_true_iff, prefix_app, IH. split.
    + intros [[post Hp]|[pre [post Hp]]].
      * exists "", post. exact Hp.
      * exists (String c pre), post. rewrite app_cons, <- Hp. reflexivity.
    + intros [[|x pre] [post Hp]].
      * left. exists post. exact Hp.
      * right. exists pre, post. rewrite app_cons in Hp. congruence.
Qed.

Lemma lower_app (a b : string) :
  Py.lower (a +:+ b) = Py.lower a +:+ Py.lower b.
Proof.
  induction a as [|x a IH]; [reflexivity|].
  rewrite app_cons. simpl. rewrite IH. reflexivity.
Qed.

Lemma lower_split (s a b : string) :
  Py.lower s = a +:+ b ->
  exists a' b', s = a' +:+ b' /\ Py.lower a' = a /\ Py.lower b' = b.
Proof.
  revert s. induction a as [|x a IH]; intros s Hs.
  - exists "", s. auto.
  - destruct s as [|c s]; [discriminate|].
    rewrite app_cons in Hs. simpl in Hs.
    injection Hs as Hc Hs. destruct (IH _ Hs) as (a' & b' & -> & <- & <-).
    exists (String c a'), b'. rewrite <- Hc. auto.
Qed.

(** The test [needle in query.lower()] of the source is a
    case-insensitive substring test on the raw query. *)
Lemma str_in_lower_ci (needle query : string) :
  Py.str_in needle (Py.lower query) = true <-> contains_ci needle query.
Proof.
  rewrite str_in_spec. unfold contains_ci. split.
  - intros (pre & post & Hq).
    destruct (lower_split _ _ _ Hq) as (pre' & rest & -> & _ & Hrest).
    destruct (lower_split _ _ _ Hrest) as (mid & post' & -> & Hmid & _).
    exists pre', mid, post'. auto.
  - intros (pre & mid & post & -> & <-).
    exists (Py.lower pre), (Py.lower post). rewrite !lower_app. reflexivity.
Qed.

(** ** Computations that cannot raise *)

Lemma try_except_ret {S A} (m : M S A) (f : exn -> A) (s : S) :
  exists a s', try_except m (fun e => ret (f e)) s = (Ret a, s').
Proof.
  unfold try_except, ret. destruct (m s) as [[a|e] s']; eauto.
Qed.

Section Totality.
Context `{Web} `{LLM}.

Lemma analyzer_analyze_url_returns (url : string) (w : World) :
  exists r w', URLAnalyzer.analyze_url url w = (Ret r, w').
Proof.
  unfold URLAnalyzer.analyze_url.
  destruct (negb (Py.str_in "gutenberg.org" url)).
  - unfold ret. eauto.
  - apply (try_except_ret _ (fun e => ({[ "error" := "Error analyzing URL: " +:+ e ]} : dict))).
Qed.

Lemma agent_get_book_summary_eq (url : string) (w : World) :
  exists r w', URLAnalyzer.analyze_url url w = (Ret r, w') /\
    URLAgent.get_book_summary url w =
      (Ret (dict_get r "summary" "Unable to generate summary"), w').
Proof.
  destruct (analyzer_analyze_url_returns url w) as (r & w' & Hr).
  exists r, w'. split; [exact Hr|].
  unfold URLAgent.get_book_summary, URLAgent.analyze_url, bind. rewrite Hr.
  reflexivity.
Qed.

Lemma agent_classify_genre_eq (url : string) (w : World) :
  exists r w', URLAnalyzer.analyze_url url w = (Ret r, w') /\
    URLAgent.classify_genre url w =
      (Ret (dict_get r "genre" "Unable to classify genre"), w').
Proof.
  destruct (analyzer_analyze_url_returns url w) as (r & w' & Hr).
  exists r, w'. split; [exact Hr|].
  unfold URLAgent.classify_genre, URLAgent.analyze_url, bind. rewrite Hr.
  reflexivity.
Qed.

Lemma chat_fallback_returns (b : bool) (title author query content : string)
    (e : exn) (w : World) :
  exists a w', URLAgent.chat_fallback b title author query content e w = (Ret a, w').
Proof.
  unfold URLAgent.chat_fallback.
  destruct (Py.len content >? 8000).
  - apply (try_except_ret _ (fun _ => URLAgent.length_limit_apology title)).
  - unfold ret. eauto.
Qed.

Lemma agent_chat_with_url_returns (url query : string) (w : World) :
  exists a w', URLAgent.chat_with_url url query w = (Ret a, w').
Proof.
  unfold URLAgent.chat_with_url, URLAgent.analyze_url, bind.
  destruct (analyzer_analyze_url_returns url w) as (r & w1 & ->).
  destruct (dict_has r "error"); [unfold ret; eauto|].
  destruct (negb _); [unfold ret; eauto|].
  destruct (get_llm w1) as [[[]|e] w2].
  - unfold try_except. destruct (invoke _ w2) as [[a|e] w3]; [eauto|].
    apply chat_fallback_returns.
  - apply chat_fallback_returns.
Qed.

End Totality.

(** ** The router *)

Section Router.
Context `{Web} `{LLM}.

(** What [_extract_url_reference] computes: the argument when it is
    non-empty, else the stored URL when that is non-empty, else the
    argument; the state is only read. *)
Lemma extract_url_reference_eq (query : string) (cur : option string) (s : State) :
  AgentSystem._extract_url_reference query cur s =
    (Ret (if Py.truthy_opt cur then cur
          else if Py.truthy_opt (Self.current_url (session s))
               then Self.current_url (session s) else cur), s).
Proof.
  unfold AgentSystem._extract_url_reference, bind, get_session, ret.
  destruct (existsb _ _), (Py.truthy_opt cur),
    (Py.truthy_opt (Self.current_url (session s))); reflexivity.
Qed.

Lemma current_title_eq (s : State) :
  AgentSystem.current_title s = (Ret (AgentSystem.title_of (session s)), s).
Proof. reflexivity. Qed.

(** Cache hit: the stored record answers and nothing else happens. *)
Lemma get_book_summary_hit (url : string) (s : State) :
  Self.current_url (session s) = Some url ->
  dict_truthy (Self.current_analysis (session s)) = true ->
  AgentSystem.get_book_summary url s =
    (Ret (dict_get (default ∅ (Self.current_analysis (session s)))
            "summary" "Unable to generate summary"), s).
Proof.
  intros Hu Ht. unfold AgentSystem.get_book_summary, bind, get_session.
  rewrite Hu, Ht, bool_decide_eq_true_2 by reflexivity. reflexivity.
Qed.

Lemma classify_genre_hit (url : string) (s : State) :
  Self.current_url (session s) = Some url ->
  dict_truthy (Self.current_analysis (session s)) = true ->
  AgentSystem.classify_genre url s =
    (Ret (dict_get (default ∅ (Self.current_analysis (session s)))
            "genre" "Unable to classify genre"), s).
Proof.
  intros Hu Ht. unfold AgentSystem.classify_genre, bind, get_session.
  rewrite Hu, Ht, bool_decide_eq_true_2 by reflexivity. reflexivity.
Qed.

(** Cache miss: the analyzer runs; the session is left as it was. *)
Lemma get_book_summary_miss (url : string) (s : State) :
  Self.current_url (session s) <> Some url \/
  dict_truthy (Self.current_analysis (session s)) = false ->
  exists r w', URLAnalyzer.analyze_url url (world s) = (Ret r, w') /\
    AgentSystem.get_book_summary url s =
      (Ret (dict_get r "summary" "Unable to generate summary"),
       mkState (session s) w').
Proof.
  intros Hmiss.
  destruct (agent_get_book_summary_eq url (world s)) as (r & w' & Hr & Hs).
  exists r, w'. split; [exact Hr|].
  unfold AgentSystem.get_book_summary, bind, get_session, lift.
  assert (bool_decide (Some url = Self.current_url (session s))
          && dict_truthy (Self.current_analysis (session s)) = false) as ->.
  { destruct Hmiss as [Hne| ->]; [|apply andb_false_r].
    rewrite bool_decide_eq_false_2; [reflexivity|congruence]. }
  rewrite Hs. reflexivity.
Qed.

Lemma classify_genre_miss (url : string) (s : State) :
  Self.current_url (session s) <> Some url \/
  dict_truthy (Self.current_analysis (session s)) = false ->
  exists r w', URLAnalyzer.analyze_url url (world s) = (Ret r, w') /\
    AgentSystem.classify_genre url s =
      (Ret (dict_get r "genre" "Unable to classify genre"),
       mkState (session s) w').
Proof.
  intros Hmiss.
  destruct (agent_classify_genre_eq url (world s)) as (r & w' & Hr & Hs).
  exists r, w'. split; [exact Hr|].
  unfold AgentSystem.classify_genre, bind, get_session, lift.
  assert (bool_decide (Some url = Self.current_url (session s))
          && dict_truthy (Self.current_analysis (session s)) = false) as ->.
  { destruct Hmiss as [Hne| ->]; [|apply andb_false_r].
    rewrite bool_decide_eq_false_2; [reflexivity|congruence]. }
  rewrite Hs. reflexivity.
Qed.

(** Every method but [analyze_url] returns and keeps the session. *)
Lemma get_book_summary_frame (url : string) (s : State) :
  exists v w', AgentSystem.get_book_summary url s = (Ret v, mkState (session s) w').
Proof.
  destruct (decide (Self.current_url (session s) = Some url)) as [Hu|Hu];
    [destruct (dict_truthy (Self.current_analysis (session s))) eqn:Ht|].
  - rewrite (get_book_summary_hit url s Hu Ht). destruct s; eauto.
  - destruct (get_book_summary_miss url s (or_intror Ht)) as (r & w' & _ & ->). eauto.
  - destruct (get_book_summary_miss url s (or_introl Hu)) as (r & w' & _ & ->). eauto.
Qed.

Lemma classify_genre_frame (url : string) (s : State) :
  exists v w', AgentSystem.classify_genre url s = (Ret v, mkState (session s) w').
Proof.
  destruct (decide (Self.current_url (session s) = Some url)) as [Hu|Hu];
    [destruct (dict_truthy (Self.current_analysis (session s))) eqn:Ht|].
  - rewrite (classify_genre_hit url s Hu Ht). destruct s; eauto.
  - destruct (classify_genre_miss url s (or_intror Ht)) as (r & w' & _ & ->). eauto.
  - destruct (classify_genre_miss url s (or_introl Hu)) as (r & w' & _ & ->). eauto.
Qed.

Lemma chat_with_url_frame (url query : string) (s : State) :
  exists v w', AgentSystem.chat_with_url url query s = (Ret v, mkState (session s) w').
Proof.
  unfold AgentSystem.chat_with_url, lift.
  destruct (agent_chat_with_url_returns url query (world s)) as (a & w' & ->).
  eauto.
Qed.

Lemma process_user_query_unresolved (query : string) (cur : option string) (s : State) :
  Py.truthy_opt cur = false ->
  Py.truthy_opt (Self.current_url (session s)) = false ->
  AgentSystem.process_user_query query cur s =
    (Ret {[ "type" := "error";
            "content" := "Please provide a Project Gutenberg URL first." ]}, s).
Proof.
  intros Hc Hs. unfold AgentSystem.process_user_query, bind.
  rewrite extract_url_reference_eq, Hc, Hs.
  destruct cur as [[|c u]|]; try discriminate; reflexivity.
Qed.

(** The URL a query is answered for. *)
Lemma resolved_url (query : string) (cur : option string) (s : State) :
  Py.truthy_opt cur || Py.truthy_opt (Self.current_url (session s)) = true ->
  exists url, Py.truthy url = true /\
    AgentSystem._extract_url_reference query cur s = (Ret (Some url), s) /\
    Some url = (if Py.truthy_opt cur then cur else Self.current_url (session s)).
Proof.
  intros Hor. rewrite extract_url_reference_eq.
  destruct (Py.truthy_opt cur) eqn:Hc.
  - destruct cur as [u|]; [|discriminate]. exists u. auto.
  - simpl in Hor. rewrite Hor.
    destruct (Self.current_url (session s)) as [u|]; [|discriminate].
    exists u. auto.
Qed.

(** The three dispatch branches of [process_user_query]. *)
Lemma process_user_query_summary (query : string) (cur : option string)
    (s : State) (url : string) :
  AgentSystem._extract_url_reference query cur s = (Ret (Some url), s) ->
  Py.truthy url = true ->
  Py.str_in "summarize" (Py.lower query) || Py.str_in "summary" (Py.lower query) = true ->
  forall v s', AgentSystem.get_book_summary url s = (Ret v, s') ->
  AgentSystem.process_user_query query cur s =
    (Ret {[ "type" := "summary"; "title" := AgentSystem.title_of (session s');
            "content" := v ]}, s').
Proof.
  intros Hres Hu Hint v s' Hv.
  unfold AgentSystem.process_user_query, bind.
  rewrite Hres, Hu, Hint. cbn [negb].
  destruct (_ || _ || bool_decide _); rewrite Hv, current_title_eq; reflexivity.
Qed.

Lemma process_user_query_genre (query : string) (cur : option string)
    (s : State) (url : string) :
  AgentSystem._extract_url_reference query cur s = (Ret (Some url), s) ->
  Py.truthy url = true ->
  Py.str_in "summarize" (Py.lower query) || Py.str_in "summary" (Py.lower query) = false ->
  Py.str_in "genre" (Py.lower query) || Py.str_in "classify" (Py.lower query) = true ->
  forall v s', AgentSystem.classify_genre url s = (Ret v, s') ->
  AgentSystem.process_user_query query cur s =
    (Ret {[ "type" := "genre"; "title" := AgentSystem.title_of (session s');
            "content" := v ]}, s').
Proof.
  intros Hres Hu Hns Hint v s' Hv.
  unfold AgentSystem.process_user_query, bind.
  rewrite Hres, Hu, Hns, Hint. cbn [negb].
  rewrite Hv, current_title_eq. reflexivity.
Qed.

Lemma process_user_query_chat (query : string) (cur : option string)
    (s : State) (url : string) :
  AgentSystem._extract_url_reference query cur s = (Ret (Some url), s) ->
  Py.truthy url = true ->
  Py.str_in "summarize" (Py.lower query) || Py.str_in "summary" (Py.lower query) = false ->
  Py.str_in "genre" (Py.lower query) || Py.str_in "classify" (Py.lower query) = false ->
  forall v s', AgentSystem.chat_with_url url query s = (Ret v, s') ->
  AgentSystem.process_user_query query cur s =
    (Ret {[ "type" := "chat"; "title" := AgentSystem.title_of (session s');
            "query" := query; "content" := v ]}, s').
Proof.
  intros Hres Hu Hns Hng v s' Hv.
  unfold AgentSystem.process_user_query, bind.
  rewrite Hres, Hu, Hns, Hng. cbn [negb].
  rewrite Hv, current_title_eq. reflexivity.
Qed.

(** [process_user_query] always returns, its answer carries the intent
    of the query as its type, and it never writes the session. *)
Lemma process_user_query_frame (query : string) (cur : option string) (s : State) :
  exists d w', AgentSystem.process_user_query query cur s =
                 (Ret d, mkState (session s) w') /\
    (Py.truthy_opt cur || Py.truthy_opt (Self.current_url (session s)) = true ->
     d !! "type" = Some (spec_intent query)).
Proof.
  destruct (Py.truthy_opt cur || Py.truthy_opt (Self.current_url (session s))) eqn:Hor.
  - destruct (resolved_url query cur s Hor) as (url & Hu & Hres & _).
    unfold spec_intent.
    destruct (Py.str_in "summarize" (Py.lower query) || Py.str_in "summary" (Py.lower query)) eqn:Hs;
      [|destruct (Py.str_in "genre" (Py.lower query) || Py.str_in "classify" (Py.lower query)) eqn:Hg].
    + destruct (get_book_summary_frame url s) as (v & w' & Hv).
      rewrite (process_user_query_summary _ _ _ _ Hres Hu Hs _ _ Hv).
      eexists _, w'. split; [reflexivity|]. intros _. reflexivity.
    + destruct (classify_genre_frame url s) as (v & w' & Hv).
      rewrite (process_user_query_genre _ _ _ _ Hres Hu Hs Hg _ _ Hv).
      eexists _, w'. split; [reflexivity|]. intros _. reflexivity.
    + destruct (chat_with_url_frame url query s) as (v & w' & Hv).
      rewrite (process_user_query_chat _ _ _ _ Hres Hu Hs Hg _ _ Hv).
      eexists _, w'. split; [reflexivity|]. intros _. reflexivity.
  - apply orb_false_iff in Hor as [Hc Hs].
    rewrite (process_user_query_unresolved _ _ _ Hc Hs).
    eexists _, (world s). split; [destruct s; reflexivity|discriminate].
Qed.

End Router.

(** ** What the analyzer returns *)

Section AnalyzerShape.
Context `{Web} `{LLM}.

(** The analysis fields come from one of the two dictionary literals of
    [_analyze_content_with_gemini]. *)
Lemma analyze_content_shape (content : string) (metadata a : dict) (w w' : World) :
  URLAnalyzer._analyze_content_with_gemini content metadata w = (Ret a, w') ->
  exists summary genre sample,
    a = {[ "summary" := summary; "genre" := genre; "content" := sample ]}.
Proof.
  unfold URLAnalyzer._analyze_content_with_gemini, try_except, bind, ret.
  destruct (invoke _ w) as [[summary|e] w1].
  - destruct (invoke _ w1) as [[genre|e] w2]; intros [= <- <-]; eauto.
  - intros [= <- <-]; eauto.
Qed.

(** A record without an [error] key was built from a Gutenberg URL and
    carries the analysis fields. *)
Lemma analyzer_record_shape (url : string) (r : dict) (w w' : World) :
  URLAnalyzer.analyze_url url w = (Ret r, w') ->
  dict_has r "error" = false ->
  Py.str_in "gutenberg.org" url = true /\
  is_Some (r !! "summary") /\ is_Some (r !! "genre") /\
  r !! "url" = Some url.
Proof.
  unfold URLAnalyzer.analyze_url.
  destruct (Py.str_in "gutenberg.org" url); cbn [negb].
  2:{ intros [= <- <-]. discriminate. }
  unfold try_except, bind.
  destruct (URLAnalyzer._extract_metadata_from_url url w) as [[metadata|e] w1];
    [|intros [= <- <-]; discriminate].
  destruct (URLAnalyzer._get_content_url url w1) as [[cu|e] w2];
    [|intros [= <- <-]; discriminate].
  match goal with
  | |- context [match ?m w2 with _ => _ end] =>
      destruct (m w2) as [[content|e] w3]
  end; [|intros [= <- <-]; discriminate].
  destruct (URLAnalyzer._analyze_content_with_gemini content metadata w3)
    as [[a|e] w4] eqn:Ha; [|intros [= <- <-]; discriminate].
  destruct (analyze_content_shape _ _ _ _ _ Ha) as (sm & g & c & ->).
  unfold ret. intros [= <- <-] _. split; [reflexivity|].
  unfold dict_merge.
  repeat split.
  - rewrite lookup_insert_ne by discriminate.
    rewrite lookup_union_l'; [|rewrite lookup_insert_eq; eauto].
    rewrite lookup_insert_eq. eauto.
  - rewrite lookup_insert_ne by discriminate.
    rewrite lookup_union_l'; simplify_map_eq; eauto.
  - apply lookup_insert_eq.
Qed.

(** [AgentSystem.analyze_url] runs the analyzer and writes both
    attributes. *)
Lemma agent_system_analyze_url_eq (url : string) (s : State) :
  exists r w', URLAnalyzer.analyze_url url (world s) = (Ret r, w') /\
    AgentSystem.analyze_url url s =
      (Ret r, mkState (mkSession (Some url) (Some r)) w').
Proof.
  destruct (analyzer_analyze_url_returns url (world s)) as (r & w' & Hr).
  exists r, w'. split; [exact Hr|].
  unfold AgentSystem.analyze_url, bind, set_current_url, lift,
    URLAgent.analyze_url. cbn [world session]. rewrite Hr. reflexivity.
Qed.

End AnalyzerShape.

(** ** URL resolution *)

(** C1, as stated, does not hold: a query that says "this book", asked
    while the session holds one URL and the caller passes another, is
    resolved to the URL the caller passed, not to the session's. *)
Lemma C1_counterexample :
  ~ (forall (query : string) (explicit : option string) (s : State),
       Py.str_in "the book" (Py.lower query) = true \/
       Py.str_in "this book" (Py.lower query) = true \/
       Py.str_in "current book" (Py.lower query) = true ->
       Py.truthy_opt (Self.current_url (session s)) = true ->
       fst (AgentSystem._extract_url_reference query explicit s) =
         Ret (Self.current_url (session s))).
Proof.
  intros Hclaim.
  specialize (Hclaim "summarize this book" (Some Stub.frankenstein)
                (mkState (mkSession (Some Stub.alice) None) Stub.w0)).
  assert (Ret (Some Stub.frankenstein) = Ret (Some Stub.alice)) as Heq.
  { apply Hclaim; [right; left|]; reflexivity. }
  discriminate Heq.
Qed.

(** C1 (amended): for every query whose lowercased text contains "the
    book", "this book" or "current book", when the session holds a
    non-empty current URL, the resolution step yields the explicit URL
    argument if one is supplied and non-empty, and the session's
    current URL otherwise; the session is only read. *)
Theorem C1_url_resolution (query : string) (explicit : option string) (s : State) :
  Py.str_in "the book" (Py.lower query) = true \/
  Py.str_in "this book" (Py.lower query) = true \/
  Py.str_in "current book" (Py.lower query) = true ->
  Py.truthy_opt (Self.current_url (session s)) = true ->
  AgentSystem._extract_url_reference query explicit s =
    (Ret (if Py.truthy_opt explicit then explicit
          else Self.current_url (session s)), s).
Proof.
  intros _ Hs.
  unfold AgentSystem._extract_url_reference, bind, get_session, ret.
  rewrite Hs.
  destruct (existsb _ _), (Py.truthy_opt explicit); reflexivity.
Qed.

Lemma C1_url_resolution_witness :
  AgentSystem._extract_url_reference "What is the genre of the book?" None
    (mkState (mkSession (Some Stub.alice) None) Stub.w0) =
  (Ret (Some Stub.alice), mkState (mkSession (Some Stub.alice) None) Stub.w0).
Proof.
  apply (C1_url_resolution "What is the genre of the book?" None
           (mkState (mkSession (Some Stub.alice) None) Stub.w0)).
  - left. reflexivity.
  - reflexivity.
Defined.

(** ** Intent classification *)

(** C9: once a URL is resolved, the type of the answer is decided by
    case-insensitive substring tests on the raw query, first match
    first: "summarize" or "summary" gives summary; otherwise "genre" or
    "classify" gives genre; otherwise chat.  A query containing both
    "summary" and "genre" is a summary query. *)
Theorem C9_intent_classification `{Web} `{LLM}
    (query : string) (cur : option string) (s : State) :
  Py.truthy_opt cur || Py.truthy_opt (Self.current_url (session s)) = true ->
  exists d s',
    AgentSystem.process_user_query query cur s = (Ret d, s') /\
    d !! "type" = Some (spec_intent query) /\
    (contains_ci "summarize" query \/ contains_ci "summary" query ->
     d !! "type" = Some "summary") /\
    (~ (contains_ci "summarize" query \/ contains_ci "summary" query) ->
     contains_ci "genre" query \/ contains_ci "classify" query ->
     d !! "type" = Some "genre") /\
    (~ (contains_ci "summarize" query \/ contains_ci "summary" query) ->
     ~ (contains_ci "genre" query \/ contains_ci "classify" query) ->
     d !! "type" = Some "chat") /\
    (contains_ci "summary" query -> contains_ci "genre" query ->
     d !! "type" = Some "summary").
Proof.
  intros Hor.
  destruct (process_user_query_frame query cur s) as (d & w' & Hpq & Hty).
  specialize (Hty Hor). exists d, (mkState (session s) w').
  split; [exact Hpq|]. split; [exact Hty|].
  rewrite Hty. unfold spec_intent.
  rewrite <- !str_in_lower_ci.
  destruct (Py.str_in "summarize" (Py.lower query)),
    (Py.str_in "summary" (Py.lower query)),
    (Py.str_in "genre" (Py.lower query)),
    (Py.str_in "classify" (Py.lower query)); cbn [orb];
    repeat split; intros; try reflexivity; exfalso; intuition discriminate.
Qed.

Lemma C9_intent_classification_witness :
  exists d s',
    @AgentSystem.process_user_query (Stub.web_const (Stub.book_page "Alice"))
      Stub.llm_ok "Can you SUMMARY the genre?" (Some Stub.alice)
      (mkState AgentSystem.__init__ Stub.w0) = (Ret d, s') /\
    d !! "type" = Some "summary".
Proof.
  destruct (@C9_intent_classification (Stub.web_const (Stub.book_page "Alice"))
              Stub.llm_ok "Can you SUMMARY the genre?" (Some Stub.alice)
              (mkState AgentSystem.__init__ Stub.w0) eq_refl)
    as (d & s' & Hpq & Hty & _).
  exists d, s'. split; [exact Hpq|exact Hty].
Defined.

(** ** The session cache *)

(** C2, as stated, does not hold: a summary query for a URL other than
    the cached one runs the analyzer but leaves the session as it was,
    so the URL asked about is not the cached URL afterwards. *)
Lemma C2_counterexample :
  ~ (forall (web : Web) (llm : LLM) (query : string) (cur : option string)
            (s : State) (url : string),
       AgentSystem._extract_url_reference query cur s = (Ret (Some url), s) ->
       Py.truthy url = true ->
       Self.current_url (session s) <> Some url ->
       spec_intent query = "summary" \/ spec_intent query = "genre" ->
       Self.current_url
         (session (snd (AgentSystem.process_user_query query cur s))) = Some url).
Proof.
  intros Hclaim.
  specialize (Hclaim (Stub.web_const (Stub.book_page "Alice")) Stub.llm_ok
                "Give me a summary" (Some Stub.frankenstein)
                (mkState (mkSession (Some Stub.alice) None) Stub.w0)
                Stub.frankenstein).
  destruct (@process_user_query_frame (Stub.web_const (Stub.book_page "Alice"))
              Stub.llm_ok "Give me a summary" (Some Stub.frankenstein)
              (mkState (mkSession (Some Stub.alice) None) Stub.w0))
    as (d & w' & Hpq & _).
  rewrite Hpq in Hclaim. cbn [snd session Self.current_url] in Hclaim.
  assert (Some Stub.alice = Some Stub.frankenstein) as Heq.
  { apply Hclaim; [reflexivity|reflexivity|discriminate|left; reflexivity]. }
  discriminate Heq.
Qed.

(** C2 (amended): for every summary- or genre-intent query whose
    resolved URL differs from the session's cached URL, the router runs
    the Content Analyzer on that URL and answers with the summary
    (respectively genre) field of the fresh record; it stores neither
    the record nor the URL: the session cache is left unchanged, so a
    later query against the same URL runs the analyzer again. *)
Theorem C2_fresh_analysis_is_not_cached `{Web} `{LLM}
    (query : string) (cur : option string) (s : State) (url : string) :
  AgentSystem._extract_url_reference query cur s = (Ret (Some url), s) ->
  Py.truthy url = true ->
  Self.current_url (session s) <> Some url ->
  spec_intent query = "summary" \/ spec_intent query = "genre" ->
  exists r w',
    URLAnalyzer.analyze_url url (world s) = (Ret r, w') /\
    AgentSystem.process_user_query query cur s =
      (Ret {[ "type" := spec_intent query;
              "title" := AgentSystem.title_of (session s);
              "content" :=
                if bool_decide (spec_intent query = "summary")
                then dict_get r "summary" "Unable to generate summary"
                else dict_get r "genre" "Unable to classify genre" ]},
       mkState (session s) w').
Proof.
  intros Hres Hu Hne Hint. unfold spec_intent in *.
  destruct (Py.str_in "summarize" (Py.lower query)
            || Py.str_in "summary" (Py.lower query)) eqn:Hs.
  - destruct (get_book_summary_miss url s (or_introl Hne)) as (r & w' & Hr & Hv).
    exists r, w'. split; [exact Hr|].
    rewrite (process_user_query_summary _ _ _ _ Hres Hu Hs _ _ Hv).
    reflexivity.
  - destruct (Py.str_in "genre" (Py.lower query)
              || Py.str_in "classify" (Py.lower query)) eqn:Hg.
    + destruct (classify_genre_miss url s (or_introl Hne)) as (r & w' & Hr & Hv).
      exists r, w'. split; [exact Hr|].
      rewrite (process_user_query_genre _ _ _ _ Hres Hu Hs Hg _ _ Hv).
      reflexivity.
    + destruct Hint; discriminate.
Qed.

Lemma C2_fresh_analysis_is_not_cached_witness :
  exists d w',
    @AgentSystem.process_user_query (Stub.web_const (Stub.book_page "Alice"))
      Stub.llm_ok "Give me a summary" (Some Stub.frankenstein)
      (mkState (mkSession (Some Stub.alice) None) Stub.w0) =
    (Ret d, mkState (mkSession (Some Stub.alice) None) w') /\
    d !! "content" = Some "A fine book.".
Proof.
  destruct (@C2_fresh_analysis_is_not_cached
              (Stub.web_const (Stub.book_page "Alice")) Stub.llm_ok
              "Give me a summary" (Some Stub.frankenstein)
              (mkState (mkSession (Some Stub.alice) None) Stub.w0)
              Stub.frankenstein)
    as (r & w' & Hr & Hpq).
  - reflexivity.
  - reflexivity.
  - discriminate.
  - left. reflexivity.
  - eexists _, w'. split; [exact Hpq|].
    assert (r = match fst (@URLAnalyzer.analyze_url
                             (Stub.web_const (Stub.book_page "Alice"))
                             Stub.llm_ok Stub.frankenstein Stub.w0) with
                | Ret r0 => r0
                | Raise _ => ∅
                end) as ->.
    { cbn [world] in Hr. rewrite Hr. reflexivity. }
    vm_compute. reflexivity.
Defined.

(** C3: right after an analysis of [url] that produced a record (no
    [error] key), a summary-intent query asked without an explicit URL
    (or with that same URL) is answered with exactly the [summary]
    field of the cached record, and the state does not change at all:
    no page is requested and no prompt is sent. *)
Theorem C3_summary_served_from_cache `{Web} `{LLM}
    (url query : string) (cur : option string) (s0 s1 : State) (r : dict) :
  AgentSystem.analyze_url url s0 = (Ret r, s1) ->
  dict_has r "error" = false ->
  Py.str_in "summarize" (Py.lower query)
  || Py.str_in "summary" (Py.lower query) = true ->
  Py.truthy_opt cur = false \/ cur = Some url ->
  exists summary d,
    r !! "summary" = Some summary /\
    AgentSystem.process_user_query query cur s1 = (Ret d, s1) /\
    d !! "type" = Some "summary" /\
    d !! "content" = Some summary.
Proof.
  intros Han Hok Hint Hcur.
  destruct (agent_system_analyze_url_eq url s0) as (r' & w' & Hr & Heq).
  rewrite Heq in Han. injection Han as -> <-.
  destruct (analyzer_record_shape _ _ _ _ Hr Hok) as (Hg & [summary Hsum] & _ & _).
  assert (Py.truthy url = true) as Hu.
  { destruct url; [discriminate Hg|reflexivity]. }
  assert (dict_truthy (Some r) = true) as Hne.
  { unfold dict_truthy. rewrite bool_decide_eq_false_2; [reflexivity|].
    intros ->. rewrite lookup_empty in Hsum. discriminate. }
  set (s1 := mkState (mkSession (Some url) (Some r)) w').
  assert (AgentSystem._extract_url_reference query cur s1 = (Ret (Some url), s1))
    as Hres.
  { rewrite extract_url_reference_eq. cbn [s1 session Self.current_url].
    destruct Hcur as [-> | ->]; cbn [Py.truthy_opt]; rewrite Hu; reflexivity. }
  exists summary. eexists. split; [exact Hsum|]. split.
  - apply (process_user_query_summary _ _ _ _ Hres Hu Hint).
    apply get_book_summary_hit; [reflexivity|exact Hne].
  - subst s1. cbn [session Self.current_analysis].
    change (default ∅ (Some r)) with r. unfold dict_get at 2.
    rewrite Hsum. split; reflexivity.
Qed.

Lemma C3_summary_served_from_cache_witness :
  let web := Stub.web_const (Stub.book_page "Alice was beginning to get very tired") in
  let s1 := snd (@AgentSystem.analyze_url web Stub.llm_ok Stub.alice
                   (mkState AgentSystem.__init__ Stub.w0)) in
  exists d,
    @AgentSystem.process_user_query web Stub.llm_ok "summarize this book" None s1 =
      (Ret d, s1) /\
    d !! "content" = Some "A fine book." /\
    List.length (http_log (world s1)) = 3%nat /\
    List.length (llm_log (world s1)) = 2%nat.
Proof.
  intros web s1.
  destruct (@C3_summary_served_from_cache web Stub.llm_ok Stub.alice
              "summarize this book" None
              (mkState AgentSystem.__init__ Stub.w0) s1
              (default ∅ (Self.current_analysis (session s1))))
    as (summary & d & Hsum & Hpq & _ & Hc).
  - vm_compute. reflexivity.
  - vm_compute. reflexivity.
  - reflexivity.
  - left. reflexivity.
  - exists d. split; [exact Hpq|]. split; [|split; vm_compute; reflexivity].
    rewrite Hc, <- Hsum. vm_compute. reflexivity.
Defined.

(** ** The session invariant *)

Section Invariant.
Context `{Web} `{LLM}.

(** Every operation other than [analyze_url] leaves both attributes
    untouched. *)
Lemma run_op_frame (op : Op) (s : State) :
  (forall url, op <> OpAnalyze url) ->
  session (run_op op s) = session s.
Proof.
  intros Hop. destruct op as [url|url|url|url query|query cur|query cur];
    cbn [run_op].
  - destruct (Hop url eq_refl).
  - destruct (get_book_summary_frame url s) as (v & w' & ->). reflexivity.
  - destruct (classify_genre_frame url s) as (v & w' & ->). reflexivity.
  - destruct (chat_with_url_frame url query s) as (v & w' & ->). reflexivity.
  - rewrite extract_url_reference_eq. reflexivity.
  - destruct (process_user_query_frame query cur s) as (d & w' & -> & _).
    reflexivity.
Qed.

Lemma run_op_paired (op : Op) (s : State) :
  paired (session s) -> paired (session (run_op op s)).
Proof.
  intros Hp. destruct op as [url| | | | |];
    try (rewrite run_op_frame; [exact Hp|intros ?; discriminate]).
  cbn [run_op].
  destruct (agent_system_analyze_url_eq url s) as (r & w' & Hr & ->).
  cbn [snd session]. unfold paired. cbn [Self.current_analysis Self.current_url].
  exists url. split; [reflexivity|]. exists (world s), w'. exact Hr.
Qed.

End Invariant.

(** C5: in every reachable state a cached analysis is the record the
    Content Analyzer produced for the cached URL.  [analyze_url] writes
    the URL and the record together, and no other operation of the
    session writes either of them. *)
Theorem C5_no_stale_pairing `{Web} `{LLM} :
  (forall s, reachable s -> paired (session s)) /\
  (forall url s,
     exists r w',
       URLAnalyzer.analyze_url url (world s) = (Ret r, w') /\
       AgentSystem.analyze_url url s =
         (Ret r, mkState (mkSession (Some url) (Some r)) w')) /\
  (forall op s,
     (forall url, op <> OpAnalyze url) ->
     session (run_op op s) = session s).
Proof.
  split; [|split].
  - intros s Hs. induction Hs as [w|op s _ IH].
    + exact I.
    + apply run_op_paired. exact IH.
  - apply agent_system_analyze_url_eq.
  - apply run_op_frame.
Qed.

(** ** Content sampling *)

Lemma len_nonneg (s : string) : 0 <= Py.len s.
Proof. unfold Py.len. lia. Qed.

Lemma len_str_take (n : nat) (s : string) :
  Py.len (Py.str_take n s) = Z.min (Z.of_nat n) (Py.len s).
Proof. unfold Py.len. rewrite length_str_take. lia. Qed.

Lemma len_str_drop (n : nat) (s : string) :
  Py.len (Py.str_drop n s) = Z.max 0 (Py.len s - Z.of_nat n).
Proof. unfold Py.len. rewrite length_str_drop. lia. Qed.

(** [s[:n]] for [0 <= n]. *)
Lemma slice_prefix (s : string) (n : Z) :
  0 <= n ->
  Py.slice s None (Some n) = Py.str_take (Z.to_nat n) s.
Proof.
  intros Hn. unfold Py.slice, Py.clamp.
  pose proof (len_nonneg s) as Hl.
  assert ((n <? 0) = false) as -> by lia.
  rewrite Z.sub_0_r. cbn [Z.to_nat Py.str_drop].
  destruct (Z_le_gt_dec n (Py.len s)) as [Hle|Hgt].
  - rewrite Z.min_r, Z.max_r by lia. reflexivity.
  - rewrite Z.min_l, Z.max_r by lia.
    revert Hgt. unfold Py.len. intros Hgt.
    rewrite Nat2Z.id.
    assert (forall a b t, (String.length t <= a)%nat -> (String.length t <= b)%nat ->
                          Py.str_take a t = Py.str_take b t) as Htake.
    { clear. intros a b t. revert a b.
      induction t as [|c t IH]; intros [|a] [|b] Ha Hb; simpl in *;
        try reflexivity; try lia.
      f_equal. apply IH; lia. }
    apply Htake; lia.
Qed.

(** [s[a:b]] for [0 <= a <= b <= len(s)]. *)
Lemma slice_inside (s : string) (a b : Z) :
  0 <= a -> a <= b -> b <= Py.len s ->
  Py.slice s (Some a) (Some b) =
    Py.str_take (Z.to_nat (b - a)) (Py.str_drop (Z.to_nat a) s).
Proof.
  intros Ha Hab Hb. unfold Py.slice, Py.clamp.
  assert ((a <? 0) = false) as -> by lia.
  assert ((b <? 0) = false) as -> by lia.
  rewrite !Z.min_r, !Z.max_r by lia. reflexivity.
Qed.

(** [s[-n:]] for [0 < n <= len(s)]. *)
Lemma slice_suffix (s : string) (n : Z) :
  0 < n -> n <= Py.len s ->
  Py.slice s (Some (- n)) None = Py.str_drop (Z.to_nat (Py.len s - n)) s.
Proof.
  intros Hn Hl. unfold Py.slice, Py.clamp.
  assert ((- n <? 0) = true) as -> by lia.
  rewrite Z.min_r, Z.max_r by lia.
  replace (Py.len s - (- n + Py.len s)) with n by lia.
  replace (- n + Py.len s) with (Py.len s - n) by lia.
  set (d := Py.str_drop (Z.to_nat (Py.len s - n)) s).
  assert (String.length d = Z.to_nat n) as Hd.
  { unfold d. rewrite length_str_drop. unfold Py.len in *. lia. }
  rewrite <- Hd. clear. induction d as [|c d IH]; simpl; [reflexivity|].
  f_equal. exact IH.
Qed.

Lemma int_third : Py.int (Py.truediv URLAnalyzer.max_content_length 3) = 5333.
Proof. reflexivity. Qed.

(** [int(len(content)/2 - max_content_length/6)] for a long text. *)
Lemma middle_start_eq (content : string) :
  Py.len content > 16000 ->
  URLAnalyzer.middle_start content = Py.len content / 2 - 2667.
Proof.
  intros HL. unfold URLAnalyzer.middle_start, Py.int, Py.truediv,
    URLAnalyzer.max_content_length.
  generalize dependent (Py.len content). intros L HL.
  cbn.
  change (Z.pos (1 * 6)) with 6. change (Z.pos (1 * 2)) with 2.
  change (Z.pos (1 * 2 * (1 * 6))) with 12.
  rewrite Z.quot_div_nonneg by lia.
  Z.div_mod_to_equations. lia.
Qed.

(** C4, as stated, does not hold: for a text of 30000 characters the
    segments have 5333 characters each, not about 10000. *)
Lemma C4_counterexample :
  ~ (forall content : string,
       Py.len content > 16000 ->
       let L := Py.len content in
       (L / 3 - 1 <= Py.len (URLAnalyzer.beginning content) <= L / 3 + 1) /\
       (L / 3 - 1 <= Py.len (URLAnalyzer.middle content) <= L / 3 + 1) /\
       (L / 3 - 1 <= Py.len (URLAnalyzer.end_ content) <= L / 3 + 1) /\
       (-2 <= 2 * URLAnalyzer.middle_start content
              + Py.len (URLAnalyzer.middle content) - L <= 2)).
Proof.
  intros Hclaim.
  specialize (Hclaim (Stub.str_repeat "a" (Z.to_nat 30000))).
  assert (Py.len (Stub.str_repeat "a" (Z.to_nat 30000)) = 30000) as HL
    by (vm_compute; reflexivity).
  assert (Py.len (URLAnalyzer.beginning (Stub.str_repeat "a" (Z.to_nat 30000))) = 5333)
    as Hb by (vm_compute; reflexivity).
  rewrite HL, Hb in Hclaim.
  destruct Hclaim as [[Hlo _] _]; [lia|].
  revert Hlo. vm_compute. intros Hlo. apply Hlo. reflexivity.
Qed.

(** C4 (amended): for every input text of length L > 16000 the content
    sample consists of three segments joined with the two omission
    markers; each segment has 5333 characters (a third of the 16000
    character budget, whatever L is): the first 5333 characters, the
    last 5333 characters, and the 5333 characters from index
    L/2 - 2667, a window centred at index L/2 up to rounding. *)
Theorem C4_content_sample (content : string) :
  Py.len content > 16000 ->
  URLAnalyzer.content_sample content =
    URLAnalyzer.beginning content +:+ URLAnalyzer.middle_marker +:+
    URLAnalyzer.middle content +:+ URLAnalyzer.later_marker +:+
    URLAnalyzer.end_ content /\
  URLAnalyzer.beginning content = Py.str_take (Z.to_nat 5333) content /\
  URLAnalyzer.middle content =
    Py.str_take (Z.to_nat 5333)
      (Py.str_drop (Z.to_nat (URLAnalyzer.middle_start content)) content) /\
  URLAnalyzer.end_ content =
    Py.str_drop (Z.to_nat (Py.len content - 5333)) content /\
  Py.len (URLAnalyzer.beginning content) = 5333 /\
  Py.len (URLAnalyzer.middle content) = 5333 /\
  Py.len (URLAnalyzer.end_ content) = 5333 /\
  URLAnalyzer.middle_start content = Py.len content / 2 - 2667 /\
  -2 <= 2 * URLAnalyzer.middle_start content
        + Py.len (URLAnalyzer.middle content) - Py.len content <= -1.
Proof.
  intros HL.
  pose proof (middle_start_eq content HL) as Hms.
  assert (0 <= Py.len content / 2 - 2667 /\
          Py.len content / 2 - 2667 + 5333 <= Py.len content) as [Hlo Hhi].
  { Z.div_mod_to_equations. lia. }
  assert (URLAnalyzer.beginning content = Py.str_take (Z.to_nat 5333) content)
    as Hb.
  { unfold URLAnalyzer.beginning. rewrite int_third.
    apply (slice_prefix content 5333). lia. }
  assert (URLAnalyzer.middle content =
          Py.str_take (Z.to_nat 5333)
            (Py.str_drop (Z.to_nat (URLAnalyzer.middle_start content)) content))
    as Hm.
  { unfold URLAnalyzer.middle. rewrite int_third, Hms.
    rewrite slice_inside by lia.
    replace (Py.len content / 2 - 2667 + 5333 - (Py.len content / 2 - 2667))
      with 5333 by lia.
    reflexivity. }
  assert (URLAnalyzer.end_ content =
          Py.str_drop (Z.to_nat (Py.len content - 5333)) content) as He.
  { unfold URLAnalyzer.end_. rewrite int_third.
    apply (slice_suffix content 5333); lia. }
  assert (Py.len (URLAnalyzer.middle content) = 5333) as Hlm.
  { rewrite Hm, len_str_take, len_str_drop, Hms. lia. }
  repeat split; try assumption.
  - unfold URLAnalyzer.content_sample, URLAnalyzer.max_content_length.
    assert ((Py.len content >? 16000) = true) as -> by lia. reflexivity.
  - rewrite Hb, len_str_take. lia.
  - rewrite He, len_str_drop. lia.
  - rewrite Hlm, Hms. Z.div_mod_to_equations. lia.
  - rewrite Hlm, Hms. Z.div_mod_to_equations. lia.
Qed.

Lemma C4_content_sample_witness :
  let content := Stub.str_repeat "a" (Z.to_nat 30000) in
  Py.len (URLAnalyzer.beginning content) = 5333 /\
  Py.len (URLAnalyzer.middle content) = 5333 /\
  Py.len (URLAnalyzer.end_ content) = 5333 /\
  URLAnalyzer.middle_start content = 12333.
Proof.
  intros content.
  destruct (C4_content_sample content) as (_ & _ & _ & _ & Hb & Hm & He & Hms & _).
  - vm_compute. reflexivity.
  - split; [exact Hb|]. split; [exact Hm|]. split; [exact He|].
    rewrite Hms. vm_compute. reflexivity.
Defined.

(** ** Rejection of other sites *)

(** C8, as stated, does not hold: the test is on the text of the URL,
    not on its host.  A URL on another host that mentions
    "gutenberg.org" in its path is analysed, which requests pages. *)
Lemma C8_counterexample :
  ~ (forall (web : Web) (llm : LLM) (url : string) (w : World),
       url_host url <> "gutenberg.org" ->
       URLAnalyzer.analyze_url url w =
         (Ret {[ "error" := "This URL does not appear to be from Project Gutenberg. Please provide a valid Project Gutenberg URL." ]}, w)).
Proof.
  intros Hclaim.
  specialize (Hclaim (Stub.web_const (Stub.book_page "Alice")) Stub.llm_ok
                "https://example.com/gutenberg.org" Stub.w0).
  assert (url_host "https://example.com/gutenberg.org" = "example.com") as Hhost
    by reflexivity.
  rewrite Hhost in Hclaim.
  assert (List.length (http_log (snd (@URLAnalyzer.analyze_url
            (Stub.web_const (Stub.book_page "Alice")) Stub.llm_ok
            "https://example.com/gutenberg.org" Stub.w0))) = 3%nat) as Hlog
    by (vm_compute; reflexivity).
  rewrite Hclaim in Hlog; [|discriminate].
  discriminate Hlog.
Qed.

(** C8 (amended): for every URL that does not contain the text
    "gutenberg.org", analyze returns the error record and leaves the
    world as it was: no page is requested and no prompt is sent. *)
Theorem C8_non_gutenberg_rejected `{Web} `{LLM} (url : string) (w : World) :
  Py.str_in "gutenberg.org" url = false ->
  URLAnalyzer.analyze_url url w =
    (Ret {[ "error" := "This URL does not appear to be from Project Gutenberg. Please provide a valid Project Gutenberg URL." ]}, w).
Proof.
  intros Hno. unfold URLAnalyzer.analyze_url. rewrite Hno. reflexivity.
Qed.

Lemma C8_non_gutenberg_rejected_witness :
  @URLAnalyzer.analyze_url (Stub.web_const (Stub.book_page "Alice")) Stub.llm_ok
    "https://example.com/book.txt" Stub.w0 =
  (Ret {[ "error" := "This URL does not appear to be from Project Gutenberg. Please provide a valid Project Gutenberg URL." ]}, Stub.w0).
Proof.
  apply (@C8_non_gutenberg_rejected (Stub.web_const (Stub.book_page "Alice"))
           Stub.llm_ok "https://example.com/book.txt" Stub.w0).
  reflexivity.
Defined.

(** ** Keys of the metadata *)


(** ** The chat path *)

Section Chat.
Context `{Web} `{LLM}.

(** [chat_with_url] up to the first call of the model. *)
Lemma chat_with_url_invoke (url query : string) (analysis : dict)
    (w w1 w2 : World) :
  URLAgent.analyze_url url w = (Ret analysis, w1) ->
  dict_has analysis "error" = false ->
  Py.truthy (dict_get analysis "content" "") = true ->
  get_llm w1 = (Ret tt, w2) ->
  URLAgent.chat_with_url url query w =
    try_except
      (invoke (URLAgent.chat_prompt (dict_get analysis "title" "Unknown Title")
                 (dict_get analysis "author" "Unknown") query
                 (dict_get analysis "content" "")))
      (URLAgent.chat_fallback true (dict_get analysis "title" "Unknown Title")
         (dict_get analysis "author" "Unknown") query
         (dict_get analysis "content" "")) w2.
Proof.
  intros Han Herr Htr Hllm.
  unfold URLAgent.chat_with_url, bind. rewrite Han, Herr, Htr. cbn [negb].
  rewrite Hllm. reflexivity.
Qed.

(** The retry prompt is shorter than the first prompt whenever a retry
    is made. *)
Lemma fallback_prompt_shorter (title author query content : string) :
  Py.len content > 8000 ->
  (String.length (URLAgent.fallback_prompt title author query content)
   < String.length (URLAgent.chat_prompt title author query content))%nat.
Proof.
  intros HL.
  unfold URLAgent.fallback_prompt, URLAgent.chat_prompt,
    URLAgent.smaller_content, nl, dq.
  rewrite slice_prefix by lia.
  rewrite !length_app, length_str_take. cbn [String.length].
  unfold Py.len in HL. lia.
Qed.

End Chat.

(** What the [except] branch of [chat_with_url] is written to do, for
    a client whose [invoke] raises: with more than 8000 characters of
    content one more call is made, with a prompt that carries the
    first 8000 characters and is shorter than the first; its answer is
    the result, and if it raises too the result is the length apology.
    With at most 8000 characters no second call is made and the result
    is "Error processing your query about '<title>': <message>".  The
    Gemini wrapper never raises from [invoke], so with it this branch
    is entered only when the client cannot be built. *)
Lemma chat_except_branch_as_written `{Web} `{LLM}
    (url query : string) (analysis : dict) (w w1 w2 w3 : World) (e : exn) :
  let title := dict_get analysis "title" "Unknown Title" in
  let author := dict_get analysis "author" "Unknown" in
  let content := dict_get analysis "content" "" in
  let prompt := URLAgent.chat_prompt title author query content in
  let retry := URLAgent.fallback_prompt title author query content in
  URLAgent.analyze_url url w = (Ret analysis, w1) ->
  dict_has analysis "error" = false ->
  Py.truthy content = true ->
  get_llm w1 = (Ret tt, w2) ->
  invoke prompt w2 = (Raise e, w3) ->
  (Py.len content > 8000 ->
   retry = "Based on this excerpt from " +:+ dq +:+ title +:+ dq +:+ " by "
           +:+ author +:+ ", please answer: " +:+ dq +:+ query +:+ dq
           +:+ ". Excerpt: "
           +:+ (Py.str_take (Z.to_nat 8000) content +:+ "...") /\
   (String.length retry < String.length prompt)%nat /\
   (forall answer w4,
      invoke retry w3 = (Ret answer, w4) ->
      URLAgent.chat_with_url url query w = (Ret answer, w4)) /\
   (forall e2 w4,
      invoke retry w3 = (Raise e2, w4) ->
      URLAgent.chat_with_url url query w =
        (Ret ("I'm sorry, but I couldn't process your query about '" +:+ title
              +:+ "' due to content length limitations. Please try asking a more specific question."),
         w4))) /\
  (Py.len content <= 8000 ->
   URLAgent.chat_with_url url query w =
     (Ret ("Error processing your query about '" +:+ title +:+ "': " +:+ e), w3)).
Proof.
  intros title author content prompt retry Han Herr Htr Hllm Hinv.
  pose proof (chat_with_url_invoke url query analysis w w1 w2 Han Herr Htr Hllm)
    as Hchat.
  fold title author content prompt in Hchat.
  unfold try_except in Hchat. rewrite Hinv in Hchat.
  unfold URLAgent.chat_fallback in Hchat.
  split.
  - intros HL.
    assert ((Py.len content >? 8000) = true) as Hgt by lia.
    rewrite Hgt in Hchat. fold retry in Hchat. unfold try_except in Hchat.
    split; [|split; [|split]].
    + unfold retry, URLAgent.fallback_prompt, URLAgent.smaller_content.
      rewrite slice_prefix by lia. reflexivity.
    + apply fallback_prompt_shorter. exact HL.
    + intros answer w4 Hr. rewrite Hchat, Hr. reflexivity.
    + intros e2 w4 Hr. rewrite Hchat, Hr. reflexivity.
  - intros HL.
    assert ((Py.len content >? 8000) = false) as Hle by lia.
    rewrite Hle in Hchat. exact Hchat.
Qed.

(** ** The Gemini wrapper *)

Section Gemini.
Context `{GenAI}.

Lemma gemini_call_raise (prompt : string) (w : World) (e : exn) :
  generate_content (llm_log w) prompt = Raise e ->
  GeminiLLM._call prompt w =
    (Ret ("Error calling Gemini API: " +:+ e),
     mkWorld (http_log w) (prompt :: llm_log w)
       (("Error calling Gemini API: " +:+ e) :: stdout w)).
Proof.
  intros He.
  unfold GeminiLLM._call, try_except, bind, GeminiLLM.model_generate_content.
  rewrite He. reflexivity.
Qed.

Lemma gemini_call_returns (prompt : string) (w : World) :
  exists text w', GeminiLLM._call prompt w = (Ret text, w').
Proof.
  unfold GeminiLLM._call, try_except, bind, GeminiLLM.model_generate_content.
  destruct (generate_content (llm_log w) prompt) as [[text|parts|repr]|e];
    unfold ret, print; eauto.
Qed.

End Gemini.

(** C10: [GeminiLLM._call] always returns a string.  When the Gemini
    API call raises, the string is "Error calling Gemini API: "
    followed by the message.  Consequently, with this wrapper as the
    model, the analyzer always takes the normal branch of its
    summary/genre step (both fields are what the wrapper returned and
    the content is the untruncated sample), and the chat path, once
    the client is configured, returns what the wrapper returned for
    the first prompt: neither handler is entered. *)
Theorem C10_gemini_call_never_raises `{GenAI} :
  (forall prompt w,
     (exists text w', GeminiLLM._call prompt w = (Ret text, w')) /\
     (forall e,
        generate_content (llm_log w) prompt = Raise e ->
        fst (GeminiLLM._call prompt w) =
          Ret ("Error calling Gemini API: " +:+ e))) /\
  (forall content metadata w,
     exists summary genre w1 w2,
       GeminiLLM._call
         (URLAnalyzer.summary_prompt (dict_get metadata "title" "Unknown Title")
            (dict_get metadata "author" "Unknown Author")
            (URLAnalyzer.content_sample content)) w = (Ret summary, w1) /\
       GeminiLLM._call
         (URLAnalyzer.genre_prompt (dict_get metadata "title" "Unknown Title")
            (dict_get metadata "author" "Unknown Author")
            (Py.slice (URLAnalyzer.content_sample content) None (Some 8000))) w1 =
         (Ret genre, w2) /\
       @URLAnalyzer._analyze_content_with_gemini GeminiLLM.gemini_llm
         content metadata w =
         (Ret {[ "summary" := summary; "genre" := genre;
                 "content" := URLAnalyzer.content_sample content ]}, w2)) /\
  (forall (web : Web) url query analysis w w1,
     @URLAgent.analyze_url web GeminiLLM.gemini_llm url w = (Ret analysis, w1) ->
     dict_has analysis "error" = false ->
     Py.truthy (dict_get analysis "content" "") = true ->
     Py.truthy gemini_api_key = true ->
     exists answer w2,
       GeminiLLM._call
         (URLAgent.chat_prompt (dict_get analysis "title" "Unknown Title")
            (dict_get analysis "author" "Unknown") query
            (dict_get analysis "content" "")) w1 = (Ret answer, w2) /\
       @URLAgent.chat_with_url web GeminiLLM.gemini_llm url query w =
         (Ret answer, w2)).
Proof.
  split; [|split].
  - intros prompt w. split; [apply gemini_call_returns|].
    intros e He. rewrite (gemini_call_raise prompt w e He). reflexivity.
  - intros content metadata w.
    set (p1 := URLAnalyzer.summary_prompt _ _ _).
    set (p2 := URLAnalyzer.genre_prompt _ _ _).
    destruct (gemini_call_returns p1 w) as (summary & w1 & H1).
    destruct (gemini_call_returns p2 w1) as (genre & w2 & H2).
    exists summary, genre, w1, w2. split; [exact H1|]. split; [exact H2|].
    unfold URLAnalyzer._analyze_content_with_gemini, try_except, bind.
    cbn [invoke GeminiLLM.gemini_llm]. fold p1 p2. rewrite H1, H2. reflexivity.
  - intros web url query analysis w w1 Han Herr Htr Hkey.
    set (p := URLAgent.chat_prompt _ _ _ _).
    destruct (gemini_call_returns p w1) as (answer & w2 & Hp).
    exists answer, w2. split; [exact Hp|].
    rewrite (@chat_with_url_invoke web GeminiLLM.gemini_llm url query analysis
               w w1 w1 Han Herr Htr).
    + unfold try_except. cbn [invoke GeminiLLM.gemini_llm]. fold p.
      rewrite Hp. reflexivity.
    + cbn [get_llm GeminiLLM.gemini_llm]. unfold GeminiLLM.__init__.
      rewrite Hkey. reflexivity.
Qed.

(** With a backend whose every request raises, the analysis still
    takes the normal branch: the two fields hold the wrapper's error
    string and the genre is not "Unknown". *)
Example gemini_down_analysis :
  let r := value_or ∅ (fst (@URLAnalyzer.analyze_url
                              (Stub.web_const (Stub.book_page "Alice"))
                              (@GeminiLLM.gemini_llm Stub.genai_down)
                              Stub.alice Stub.w0)) in
  r !! "summary" = Some "Error calling Gemini API: 503 unavailable" /\
  r !! "genre" = Some "Error calling Gemini API: 503 unavailable" /\
  r !! "content" = Some "Alice".
Proof. vm_compute. repeat split; reflexivity. Qed.

(** * Further properties of the analyzer *)

(** ** Text extraction *)

Lemma all_chars_app (p : ascii -> bool) (a b : string) :
  all_chars p (a +:+ b) = all_chars p a && all_chars p b.
Proof.
  induction a as [|c a IH]; [reflexivity|].
  rewrite app_cons. simpl. rewrite IH, andb_assoc. reflexivity.
Qed.

Lemma all_chars_rev_app (p : ascii -> bool) (a b : string) :
  all_chars p (String.rev_app a b) = all_chars p a && all_chars p b.
Proof.
  revert b. induction a as [|c a IH]; intros b; [reflexivity|].
  simpl. rewrite IH. simpl. destruct (p c), (all_chars p a); reflexivity.
Qed.

Lemma all_chars_rev (p : ascii -> bool) (a : string) :
  all_chars p (String.rev a) = all_chars p a.
Proof. unfold String.rev. rewrite all_chars_rev_app. simpl. apply andb_true_r. Qed.

Lemma all_chars_lstrip (p : ascii -> bool) (s : string) :
  all_chars p s = true -> all_chars p (Py.lstrip s) = true.
Proof.
  induction s as [|c s IH]; [reflexivity|]. simpl.
  intros [Hc Hs]%andb_true_iff.
  destruct (Py.is_space c); [auto|]. simpl. rewrite Hc, Hs. reflexivity.
Qed.

Lemma all_chars_rstrip (p : ascii -> bool) (s : string) :
  all_chars p s = true -> all_chars p (Py.rstrip s) = true.
Proof.
  induction s as [|c s IH]; [reflexivity|]. simpl.
  intros [Hc Hs]%andb_true_iff. specialize (IH Hs).
  destruct (Py.rstrip s) as [|d r].
  - destruct (Py.is_space c); [reflexivity|]. simpl. rewrite Hc. reflexivity.
  - change (all_chars p (String c (String d r)))
      with (p c && all_chars p (String d r)).
    rewrite Hc, IH. reflexivity.
Qed.

Lemma all_chars_strip (p : ascii -> bool) (s : string) :
  all_chars p s = true -> all_chars p (Py.strip s) = true.
Proof. intros Hs. apply all_chars_rstrip, all_chars_lstrip, Hs. Qed.

(** [rstrip] leaves nothing to strip on the right, and keeps the first
    character of a string that does not start with a space. *)
Lemma rstrip_idem (s : string) : Py.rstrip (Py.rstrip s) = Py.rstrip s.
Proof.
  induction s as [|c s IH]; [reflexivity|]. simpl.
  destruct (Py.rstrip s) as [|d r] eqn:Hr.
  - destruct (Py.is_space c) eqn:Hc; [reflexivity|]. simpl. rewrite Hc. reflexivity.
  - change (Py.rstrip (String c (String d r)))
      with (match Py.rstrip (String d r) with
            | EmptyString => if Py.is_space c then EmptyString else String c EmptyString
            | r0 => String c r0
            end).
    rewrite IH. reflexivity.
Qed.

Lemma lstrip_fixed (s : string) :
  match s with
  | EmptyString => True
  | String c _ => Py.is_space c = false
  end ->
  Py.lstrip s = s.
Proof. destruct s as [|c s]; [reflexivity|]. simpl. intros ->. reflexivity. Qed.

Lemma lstrip_head (s : string) :
  match Py.lstrip s with
  | EmptyString => True
  | String c _ => Py.is_space c = false
  end.
Proof.
  induction s as [|c s IH]; [exact I|]. simpl.
  destruct (Py.is_space c) eqn:Hc; [exact IH|exact Hc].
Qed.

Lemma rstrip_head (s : string) :
  match s with
  | EmptyString => True
  | String c _ => Py.is_space c = false
  end ->
  match Py.rstrip s with
  | EmptyString => True
  | String c _ => Py.is_space c = false
  end.
Proof.
  destruct s as [|c s]; [intros _; exact I|]. simpl. intros Hc.
  destruct (Py.rstrip s); [rewrite Hc|]; exact Hc.
Qed.

(** Stripping twice is stripping once. *)
Lemma strip_idem (s : string) : Py.strip (Py.strip s) = Py.strip s.
Proof.
  unfold Py.strip.
  rewrite (lstrip_fixed (Py.rstrip (Py.lstrip s)))
    by (apply rstrip_head, lstrip_head).
  apply rstrip_idem.
Qed.

Lemma splitlines_aux_no_linebreak (b : bool) (cur s : string) :
  all_chars (fun c => negb (Py.is_linebreak c)) cur = true ->
  Forall (fun line => all_chars (fun c => negb (Py.is_linebreak c)) line = true)
    (Py.splitlines_aux b cur s).
Proof.
  revert b cur. induction s as [|c s IH]; intros b cur Hcur; simpl.
  - destruct cur; [constructor|].
    constructor; [|constructor]. rewrite all_chars_rev. exact Hcur.
  - destruct (b && Ascii.eqb c "010"); [apply IH; exact Hcur|].
    destruct (Py.is_linebreak c) eqn:Hc.
    + constructor; [rewrite all_chars_rev; exact Hcur|]. apply IH. reflexivity.
    + apply IH. simpl. rewrite Hc, Hcur. reflexivity.
Qed.

Lemma split2_aux_all_chars (p : ascii -> bool) (cur s : string) :
  all_chars p cur = true -> all_chars p s = true ->
  Forall (fun piece => all_chars p piece = true) (Py.split2_aux cur s).
Proof.
  remember (String.length s) as n eqn:Hn. revert cur s Hn.
  induction n as [n IH] using lt_wf_ind. intros cur s -> Hcur Hs.
  destruct s as [|c s].
  - simpl. constructor; [|constructor]. rewrite all_chars_rev. exact Hcur.
  - simpl in Hs. apply andb_true_iff in Hs as [Hc Hs].
    assert (Forall (fun piece => all_chars p piece = true)
              (Py.split2_aux (String c cur) s)) as Hpush.
    { apply (IH (String.length s)); [simpl; lia|reflexivity| |exact Hs].
      simpl. rewrite Hc, Hcur. reflexivity. }
    destruct (ascii_dec c " ") as [->|Hne].
    + destruct s as [|d s]; [exact Hpush|].
      destruct (ascii_dec d " ") as [->|Hne'].
      * simpl. constructor; [rewrite all_chars_rev; exact Hcur|].
        simpl in Hs. apply andb_true_iff in Hs as [_ Hs].
        apply (IH (String.length s)); [simpl; lia|reflexivity|reflexivity|exact Hs].
      * replace (Py.split2_aux cur (String " " (String d s)))
          with (Py.split2_aux (String " " cur) (String d s)); [exact Hpush|].
        simpl. destruct d as [[] [] [] [] [] [] [] []]; try reflexivity.
        exfalso. apply Hne'. reflexivity.
    + replace (Py.split2_aux cur (String c s))
        with (Py.split2_aux (String c cur) s); [exact Hpush|].
      simpl. destruct c as [[] [] [] [] [] [] [] []]; try reflexivity.
      exfalso. apply Hne. reflexivity.
Qed.

Section TextExtraction.
Context `{Web}.

(** X1: [extract_text_from_url] never raises and makes exactly one
    request (nothing is printed, no prompt is sent); when the request
    fails the text returned is the message "Error extracting content
    from URL: " followed by the error. *)
Theorem X1_extract_text_fails_soft (url : string) (w : World) :
  (exists text,
     URLAnalyzer.extract_text_from_url url w =
       (Ret text, mkWorld (url :: http_log w) (llm_log w) (stdout w))) /\
  (forall e,
     fetch (http_log w) url = Raise e ->
     fst (URLAnalyzer.extract_text_from_url url w) =
       Ret ("Error extracting content from URL: " +:+ e)).
Proof.
  unfold URLAnalyzer.extract_text_from_url, try_except, bind,
    URLAnalyzer.session_get, ret.
  destruct (fetch (http_log w) url) as [page|e0]; split; eauto.
  - intros e [=].
  - intros e [= ->]. reflexivity.
Qed.

(** X2: the text extracted from a page that was fetched is a list of
    chunks joined by newlines; every chunk is non-empty, has no
    leading or trailing whitespace and contains no line break, so the
    text has no blank line. *)
Theorem X2_extracted_text_is_clean (url : string) (w : World) (page : Page) :
  fetch (http_log w) url = Ret page ->
  exists chunks,
    fst (URLAnalyzer.extract_text_from_url url w) = Ret (Py.join nl chunks) /\
    Forall (fun chunk =>
              chunk <> "" /\ Py.strip chunk = chunk /\
              all_chars (fun c => negb (Py.is_linebreak c)) chunk = true)
      chunks.
Proof.
  intros Hpage.
  unfold URLAnalyzer.extract_text_from_url, try_except, bind,
    URLAnalyzer.session_get, ret.
  rewrite Hpage. cbn [fst].
  eexists. split; [reflexivity|].
  apply Forall_forall. intros chunk Hc.
  apply list_elem_of_filter in Hc as [Htr Hin].
  apply list_elem_of_In, in_map_iff in Hin as (piece & <- & Hp).
  apply in_concat in Hp as (pieces & Hpieces & Hp).
  apply in_map_iff in Hpieces as (line' & <- & Hl').
  apply in_map_iff in Hl' as (line & <- & Hline).
  split; [|split].
  - intros Heq. rewrite Heq in Htr. discriminate.
  - apply strip_idem.
  - apply all_chars_strip.
    pose proof (split2_aux_all_chars (fun c => negb (Py.is_linebreak c))
                  "" (Py.strip line) eq_refl) as Hsplit.
    rewrite Forall_forall in Hsplit. apply Hsplit.
    + apply all_chars_strip.
      pose proof (splitlines_aux_no_linebreak false "" (page_text page) eq_refl)
        as Hlines.
      rewrite Forall_forall in Hlines. apply Hlines, list_elem_of_In, Hline.
    + apply list_elem_of_In, Hp.
Qed.

End TextExtraction.

Lemma X2_extracted_text_is_clean_witness :
  fst (@URLAnalyzer.extract_text_from_url
         (Stub.web_const
            (Stub.book_page ("  CHAPTER I.  " +:+ nl +:+ nl
                             +:+ " Down the   Rabbit-Hole " +:+ nl)))
         Stub.alice Stub.w0)
  = Ret ("CHAPTER I." +:+ nl +:+ "Down the" +:+ nl +:+ "Rabbit-Hole").
Proof.
  destruct (@X2_extracted_text_is_clean
              (Stub.web_const
                 (Stub.book_page ("  CHAPTER I.  " +:+ nl +:+ nl
                                  +:+ " Down the   Rabbit-Hole " +:+ nl)))
              Stub.alice Stub.w0 _ eq_refl) as (chunks & Heq & _).
  reflexivity.
Defined.

(** ** Metadata *)

Lemma four_digits_head (a b c d : ascii) (u y post : string) :
  String a (String b (String c (String d u))) = y +:+ post ->
  four_digits y ->
  Py.is_digit a && Py.is_digit b && Py.is_digit c && Py.is_digit d = true /\
  y = String a (String b (String c (String d EmptyString))).
Proof.
  intros Heq [Hlen Hdig].
  destruct y as [|y1 [|y2 [|y3 [|y4 [|? ?]]]]]; try discriminate Hlen.
  rewrite !app_cons, app_nil_l in Heq. injection Heq as -> -> -> -> _.
  split; [|reflexivity].
  simpl in Hdig. rewrite andb_true_r in Hdig. rewrite <- !andb_assoc. exact Hdig.
Qed.

Lemma no_four_digits_short (s pre y post : string) :
  (String.length s < 4)%nat -> s = pre +:+ y +:+ post -> ~ four_digits y.
Proof.
  intros Hlen -> [Hy _]. rewrite !length_app in Hlen. lia.
Qed.

(** The pattern [\d{4}] finds the leftmost run of four digits, and
    nothing exactly when there is none. *)
Lemma search_4digits_spec (s : string) :
  match Py.search_4digits s with
  | Some y =>
      four_digits y /\
      exists pre post,
        s = pre +:+ y +:+ post /\
        forall pre' y' post',
          s = pre' +:+ y' +:+ post' -> four_digits y' ->
          (String.length pre <= String.length pre')%nat
  | None => forall pre y post, s = pre +:+ y +:+ post -> ~ four_digits y
  end.
Proof.
  induction s as [|a t IH].
  - simpl. intros pre y post Heq. apply (no_four_digits_short "" pre y post); [simpl; lia|exact Heq].
  - destruct t as [|b [|c [|d u]]];
      try (simpl; intros pre y post Heq;
           eapply no_four_digits_short; [|exact Heq]; simpl; lia).
    change (Py.search_4digits (String a (String b (String c (String d u)))))
      with (if Py.is_digit a && Py.is_digit b && Py.is_digit c && Py.is_digit d
            then Some (String a (String b (String c (String d EmptyString))))
            else Py.search_4digits (String b (String c (String d u)))).
    destruct (Py.is_digit a && Py.is_digit b && Py.is_digit c && Py.is_digit d)
      eqn:Hd.
    + split.
      * split; [reflexivity|]. simpl. rewrite andb_true_r, <- !andb_assoc in *.
        exact Hd.
      * exists "", u. split; [reflexivity|]. intros; simpl; lia.
    + destruct (Py.search_4digits (String b (String c (String d u)))) as [y|].
      * destruct IH as (Hy & pre & post & Heq & Hleft). split; [exact Hy|].
        exists (String a pre), post. split.
        { rewrite app_cons, <- Heq. reflexivity. }
        intros [|x pre'] y' post' Heq' Hy'.
        { rewrite app_nil_l in Heq'.
          destruct (four_digits_head _ _ _ _ _ _ _ Heq' Hy') as [Hd' _].
          congruence. }
        rewrite app_cons in Heq'. injection Heq' as _ Heq'.
        specialize (Hleft _ _ _ Heq' Hy'). simpl. lia.
      * intros [|x pre] y post Heq Hy.
        { rewrite app_nil_l in Heq.
          destruct (four_digits_head _ _ _ _ _ _ _ Heq Hy) as [Hd' _].
          congruence. }
        rewrite app_cons in Heq. injection Heq as _ Heq.
        exact (IH _ _ _ Heq Hy).
Qed.

Section Metadata.
Context `{Web}.

(** X3: the metadata read off a page that was fetched.  A missing
    title or author gives the empty string, a missing language gives
    "English"; the year is the leftmost run of four digits of the
    release-date cell and is empty when the cell is missing or has no
    such run.  The dictionary has exactly the keys title, author,
    language and year, and one request was made. *)
Theorem X3_metadata_of_page (url : string) (w : World) (page : Page) :
  fetch (http_log w) url = Ret page ->
  exists m,
    URLAnalyzer._extract_metadata_from_url url w =
      (Ret m, mkWorld (url :: http_log w) (llm_log w) (stdout w)) /\
    dom m = {[ "title"; "author"; "language"; "year" ]} /\
    m !! "title" = Some (match h1_name page with
                         | Some text => Py.strip text | None => "" end) /\
    m !! "author" = Some (match a_creator page with
                          | Some text => Py.strip text | None => "" end) /\
    m !! "language" = Some (match tr_language page with
                            | Some (Some td) => Py.strip td | _ => "English" end) /\
    (exists year,
       m !! "year" = Some year /\
       match th_release page with
       | Some (Some td) =>
           (four_digits year /\
            exists pre post,
              Py.strip td = pre +:+ year +:+ post /\
              forall pre' y' post',
                Py.strip td = pre' +:+ y' +:+ post' -> four_digits y' ->
                (String.length pre <= String.length pre')%nat) \/
           (year = "" /\
            forall pre y post,
              Py.strip td = pre +:+ y +:+ post -> ~ four_digits y)
       | _ => year = ""
       end).
Proof.
  intros Hpage.
  unfold URLAnalyzer._extract_metadata_from_url, try_except, bind,
    URLAnalyzer.session_get, ret.
  rewrite Hpage. eexists. split; [reflexivity|].
  split; [|split; [|split; [|split]]].
  - destruct (h1_name page), (a_creator page),
      (tr_language page) as [[?|]|], (th_release page) as [[td|]|];
      try destruct (Py.search_4digits (Py.strip td));
      rewrite ?dom_insert_L, ?dom_singleton_L; set_solver.
  - destruct (h1_name page), (a_creator page),
      (tr_language page) as [[?|]|], (th_release page) as [[td|]|];
      try destruct (Py.search_4digits (Py.strip td));
      repeat (rewrite lookup_insert_ne by discriminate);
      rewrite lookup_insert_eq; reflexivity.
  - destruct (h1_name page), (a_creator page),
      (tr_language page) as [[?|]|], (th_release page) as [[td|]|];
      try destruct (Py.search_4digits (Py.strip td));
      repeat (rewrite lookup_insert_ne by discriminate);
      rewrite lookup_insert_eq; reflexivity.
  - destruct (h1_name page), (a_creator page),
      (tr_language page) as [[?|]|], (th_release page) as [[td|]|];
      try destruct (Py.search_4digits (Py.strip td));
      repeat (rewrite lookup_insert_ne by discriminate);
      rewrite lookup_insert_eq; reflexivity.
  - destruct (th_release page) as [[td|]|].
    + pose proof (search_4digits_spec (Py.strip td)) as Hspec.
      destruct (Py.search_4digits (Py.strip td)) as [y|].
      * exists y. split; [|left; exact Hspec].
        destruct (h1_name page), (a_creator page),
          (tr_language page) as [[?|]|];
          repeat (rewrite lookup_insert_ne by discriminate);
          rewrite lookup_insert_eq; reflexivity.
      * exists "". split; [|right; split; [reflexivity|exact Hspec]].
        destruct (h1_name page), (a_creator page),
          (tr_language page) as [[?|]|];
          repeat (rewrite lookup_insert_ne by discriminate);
          reflexivity.
    + exists "". split; [|reflexivity].
      destruct (h1_name page), (a_creator page),
        (tr_language page) as [[?|]|];
        repeat (rewrite lookup_insert_ne by discriminate); reflexivity.
    + exists "". split; [|reflexivity].
      destruct (h1_name page), (a_creator page),
        (tr_language page) as [[?|]|];
        repeat (rewrite lookup_insert_ne by discriminate); reflexivity.
Qed.

(** The metadata step never raises, makes one request and returns the
    four keys. *)
Lemma metadata_total (url : string) (w : World) :
  exists m out,
    URLAnalyzer._extract_metadata_from_url url w =
      (Ret m, mkWorld (url :: http_log w) (llm_log w) out) /\
    dom m = {[ "title"; "author"; "language"; "year" ]}.
Proof.
  unfold URLAnalyzer._extract_metadata_from_url, try_except, bind,
    URLAnalyzer.session_get, ret, print.
  destruct (fetch (http_log w) url) as [page|e]; cbn [http_log llm_log stdout].
  - eexists _, _. split; [reflexivity|].
    destruct (h1_name page), (a_creator page),
      (tr_language page) as [[?|]|], (th_release page) as [[td|]|];
      try destruct (Py.search_4digits (Py.strip td));
      rewrite ?dom_insert_L, ?dom_singleton_L; set_solver.
  - eexists _, _. split; [reflexivity|].
    rewrite ?dom_insert_L, ?dom_singleton_L. set_solver.
Qed.

(** X4: extracting metadata never raises and always yields the four
    keys after exactly one request; when the request fails, the values
    are the four "Unknown" placeholders (not the empty defaults of a
    page without the elements) and the failure is printed. *)
Theorem X4_metadata_fails_soft (url : string) (w : World) :
  (exists m out,
     URLAnalyzer._extract_metadata_from_url url w =
       (Ret m, mkWorld (url :: http_log w) (llm_log w) out) /\
     dom m = {[ "title"; "author"; "language"; "year" ]}) /\
  (forall e,
     fetch (http_log w) url = Raise e ->
     URLAnalyzer._extract_metadata_from_url url w =
       (Ret {[ "title" := "Unknown Title"; "author" := "Unknown Author";
               "language" := "Unknown"; "year" := "Unknown" ]},
        mkWorld (url :: http_log w) (llm_log w)
          (("Error extracting metadata: " +:+ e) :: stdout w))).
Proof.
  split; [apply metadata_total|].
  intros e He.
  unfold URLAnalyzer._extract_metadata_from_url, try_except, bind,
    URLAnalyzer.session_get, ret. rewrite He. reflexivity.
Qed.

End Metadata.

Lemma X3_metadata_of_page_witness :
  exists m,
    fst (@URLAnalyzer._extract_metadata_from_url
           (Stub.web_const
              (mkPage "" (Some " Alice's Adventures in Wonderland ") None None
                 (Some (Some "Jun 27, 2008 [eBook #11]")) []))
           Stub.alice Stub.w0) = Ret m /\
    m !! "title" = Some "Alice's Adventures in Wonderland" /\
    m !! "author" = Some "" /\
    m !! "language" = Some "English" /\
    m !! "year" = Some "2008".
Proof.
  destruct (@X3_metadata_of_page
              (Stub.web_const
                 (mkPage "" (Some " Alice's Adventures in Wonderland ") None None
                    (Some (Some "Jun 27, 2008 [eBook #11]")) []))
              Stub.alice Stub.w0 _ eq_refl)
    as (m & Heq & _ & Ht & Ha & Hl & _).
  exists m. rewrite Heq. split; [reflexivity|].
  split; [exact Ht|]. split; [exact Ha|]. split; [exact Hl|].
  injection Heq as <- . reflexivity.
Defined.

(** ** The content link *)

Lemma find_first {A} (p : A -> bool) (pre : list A) (a : A) (post : list A) :
  Forall (fun b => p b = false) pre -> p a = true ->
  List.find p (pre ++ a :: post) = Some a.
Proof.
  intros Hpre Ha. induction Hpre as [|b pre Hb _ IH]; simpl.
  - rewrite Ha. reflexivity.
  - rewrite Hb. exact IH.
Qed.

Lemma find_none {A} (p : A -> bool) (l : list A) :
  Forall (fun b => p b = false) l -> List.find p l = None.
Proof.
  intros Hl. induction Hl as [|b l Hb _ IH]; simpl; [reflexivity|].
  rewrite Hb. exact IH.
Qed.

Section ContentUrl.
Context `{Web}.

Lemma content_url_total (url : string) (w : World) :
  exists cu out,
    URLAnalyzer._get_content_url url w =
      (Ret cu, mkWorld (url :: http_log w) (llm_log w) out).
Proof.
  unfold URLAnalyzer._get_content_url, try_except, bind,
    URLAnalyzer.session_get, ret, print, URLAnalyzer.href, raise.
  destruct (fetch (http_log w) url) as [page|e]; cbn [http_log llm_log stdout];
    [|eauto].
  destruct (List.find _ (anchors page)) as [a|].
  - destruct (a_href a); cbn [http_log llm_log stdout]; eauto.
  - destruct (List.find _ (anchors page)) as [a|]; [|eauto].
    destruct (a_href a); cbn [http_log llm_log stdout]; eauto.
Qed.

(** X5: the choice of the content link.  The first link whose text
    contains "Plain Text UTF-8" decides, wherever it stands among the
    links: the result is its [href], and nothing at all when it has no
    [href] (the links to .txt files are then not tried).  Without such
    a link the result is the first [href] containing ".txt", or
    nothing.  A failed request gives nothing and is printed.  Nothing
    is raised in any case. *)
Theorem X5_content_url_choice (url : string) (w : World) :
  (forall e,
     fetch (http_log w) url = Raise e ->
     URLAnalyzer._get_content_url url w =
       (Ret None,
        mkWorld (url :: http_log w) (llm_log w)
          (("Error getting content URL: " +:+ e) :: stdout w))) /\
  (forall page,
     fetch (http_log w) url = Ret page ->
     (forall pre a post,
        anchors page = pre ++ a :: post ->
        Forall (fun b => Py.str_in "Plain Text UTF-8" (a_text b) = false) pre ->
        Py.str_in "Plain Text UTF-8" (a_text a) = true ->
        fst (URLAnalyzer._get_content_url url w) = Ret (a_href a)) /\
     (Forall (fun b => Py.str_in "Plain Text UTF-8" (a_text b) = false)
        (anchors page) ->
      (forall pre a post,
         anchors page = pre ++ a :: post ->
         Forall (fun b => Py.str_in ".txt" (default "" (a_href b)) = false) pre ->
         Py.str_in ".txt" (default "" (a_href a)) = true ->
         fst (URLAnalyzer._get_content_url url w) = Ret (a_href a)) /\
      (Forall (fun b => Py.str_in ".txt" (default "" (a_href b)) = false)
         (anchors page) ->
       fst (URLAnalyzer._get_content_url url w) = Ret None))).
Proof.
  unfold URLAnalyzer._get_content_url, try_except, bind,
    URLAnalyzer.session_get, ret, print, URLAnalyzer.href, raise.
  split.
  - intros e ->. reflexivity.
  - intros page ->. split; [|intros Hnone; split].
    + intros pre a post -> Hpre Ha.
      rewrite (find_first _ pre a post Hpre Ha).
      destruct (a_href a); reflexivity.
    + intros pre a post Heq Hpre Ha.
      rewrite (find_none _ _ Hnone). rewrite Heq.
      rewrite (find_first _ pre a post Hpre Ha).
      destruct (a_href a); reflexivity.
    + intros Htxt. rewrite (find_none _ _ Hnone), (find_none _ _ Htxt).
      reflexivity.
Qed.

End ContentUrl.

(** The plain-text link is chosen although a .txt link comes first. *)
Example content_url_prefers_plain_text :
  fst (@URLAnalyzer._get_content_url (Stub.web_const Fixture.download_page)
         Stub.alice Stub.w0) = Ret (Some "/ebooks/11.txt.utf-8").
Proof. reflexivity. Qed.

(** ** The whole analysis *)

Lemma extract_text_total `{Web} (url : string) (w : World) :
  exists text,
    URLAnalyzer.extract_text_from_url url w =
      (Ret text, mkWorld (url :: http_log w) (llm_log w) (stdout w)).
Proof.
  unfold URLAnalyzer.extract_text_from_url, try_except, bind,
    URLAnalyzer.session_get, ret.
  destruct (fetch (http_log w) url); eauto.
Qed.

Lemma gemini_call_world `{GenAI} (prompt : string) (w : World) :
  exists text out,
    GeminiLLM._call prompt w =
      (Ret text, mkWorld (http_log w) (prompt :: llm_log w) out).
Proof.
  unfold GeminiLLM._call, try_except, bind, GeminiLLM.model_generate_content,
    ret, print.
  destruct (generate_content (llm_log w) prompt) as [[text|parts|repr]|e];
    cbn [http_log llm_log stdout]; eauto.
Qed.

(** With the Gemini wrapper the summary/genre step sends its two
    prompts and returns the three analysis fields. *)
Lemma analyze_content_gemini `{GenAI} (content : string) (metadata : dict)
    (w : World) :
  exists summary genre out,
    @URLAnalyzer._analyze_content_with_gemini GeminiLLM.gemini_llm
      content metadata w =
      (Ret {[ "summary" := summary; "genre" := genre;
              "content" := URLAnalyzer.content_sample content ]},
       mkWorld (http_log w)
         (URLAnalyzer.genre_prompt (dict_get metadata "title" "Unknown Title")
            (dict_get metadata "author" "Unknown Author")
            (Py.slice (URLAnalyzer.content_sample content) None (Some 8000))
          :: URLAnalyzer.summary_prompt (dict_get metadata "title" "Unknown Title")
               (dict_get metadata "author" "Unknown Author")
               (URLAnalyzer.content_sample content)
          :: llm_log w) out).
Proof.
  unfold URLAnalyzer._analyze_content_with_gemini, try_except, bind.
  cbn [invoke GeminiLLM.gemini_llm].
  set (p1 := URLAnalyzer.summary_prompt _ _ _).
  set (p2 := URLAnalyzer.genre_prompt _ _ _).
  destruct (gemini_call_world p1 w) as (summary & out1 & ->).
  destruct (gemini_call_world p2 (mkWorld (http_log w) (p1 :: llm_log w) out1))
    as (genre & out2 & ->).
  cbn [http_log llm_log]. unfold ret. eauto.
Qed.

(** The effects of analysing a Gutenberg URL with the Gemini wrapper. *)
Lemma gutenberg_analysis_effects `{Web} `{GenAI} (url : string) (w : World) :
  Py.str_in "gutenberg.org" url = true ->
  exists r w' target summary_prompt genre_prompt,
    @URLAnalyzer.analyze_url _ GeminiLLM.gemini_llm url w = (Ret r, w') /\
    dom r = {[ "title"; "author"; "language"; "year";
               "summary"; "genre"; "content"; "url" ]} /\
    r !! "url" = Some url /\
    http_log w' = target :: url :: url :: http_log w /\
    llm_log w' = genre_prompt :: summary_prompt :: llm_log w.
Proof.
  intros Hg. unfold URLAnalyzer.analyze_url. rewrite Hg. cbn [negb].
  unfold try_except, bind.
  destruct (metadata_total url w) as (m & out1 & -> & Hdom).
  set (w1 := mkWorld _ _ out1).
  destruct (content_url_total url w1) as (cu & out2 & ->).
  set (w2 := mkWorld _ _ out2).
  set (target := match cu with
                 | Some u => if Py.truthy u then u else url
                 | None => url
                 end).
  assert (exists text,
             (match cu with
              | Some u => if Py.truthy u then URLAnalyzer.extract_text_from_url u
                          else URLAnalyzer.extract_text_from_url url
              | None => URLAnalyzer.extract_text_from_url url
              end) w2 =
             (Ret text, mkWorld (target :: http_log w2) (llm_log w2) (stdout w2)))
    as (text & Htext).
  { subst target. destruct cu as [u|]; [destruct (Py.truthy u)|];
      apply extract_text_total. }
  destruct cu as [u|]; [destruct (Py.truthy u)|]; rewrite Htext;
    match goal with
    | |- context [URLAnalyzer._analyze_content_with_gemini ?c ?md ?w3] =>
        destruct (analyze_content_gemini c md w3) as (sm & g & out3 & ->)
    end;
    unfold ret, dict_merge;
    (eexists _, _, target, _, _; split; [reflexivity|]; split; [|split; [|split]];
     [ rewrite dom_insert_L, dom_union_L, Hdom,
         ?dom_insert_L, ?dom_singleton_L; set_solver
     | apply lookup_insert_eq
     | reflexivity
     | reflexivity ]).
Qed.

(** X6: with the Gemini wrapper as the model, the analysis of a URL
    that contains "gutenberg.org" never yields an error record,
    whatever the network and the model do: the record has exactly the
    keys title, author, language, year, summary, genre, content and
    url, its url is the one asked for, and the analysis made exactly
    three page requests (the book page twice, then the text) and sent
    exactly two prompts.  The handler "Error analyzing URL" is never
    entered. *)
Theorem X6_analysis_of_gutenberg_url `{Web} `{GenAI} (url : string) (w : World) :
  Py.str_in "gutenberg.org" url = true ->
  exists r w' target summary_prompt genre_prompt,
    @URLAnalyzer.analyze_url _ GeminiLLM.gemini_llm url w = (Ret r, w') /\
    dom r = {[ "title"; "author"; "language"; "year";
               "summary"; "genre"; "content"; "url" ]} /\
    r !! "error" = None /\
    r !! "url" = Some url /\
    http_log w' = target :: url :: url :: http_log w /\
    llm_log w' = genre_prompt :: summary_prompt :: llm_log w.
Proof.
  intros Hg.
  destruct (gutenberg_analysis_effects url w Hg)
    as (r & w' & target & sp & gp & Heq & Hdom & Hurl & Hhttp & Hllm).
  exists r, w', target, sp, gp.
  split; [exact Heq|]. split; [exact Hdom|]. split.
  - apply not_elem_of_dom. rewrite Hdom. set_unfold. intuition discriminate.
  - split; [exact Hurl|]. split; [exact Hhttp|exact Hllm].
Qed.

Lemma X6_analysis_of_gutenberg_url_witness :
  exists r w',
    @URLAnalyzer.analyze_url Fixture.web_down
      (@GeminiLLM.gemini_llm Stub.genai_down) Stub.alice Stub.w0 = (Ret r, w') /\
    r !! "error" = None /\
    http_log w' = [Stub.alice; Stub.alice; Stub.alice] /\
    List.length (llm_log w') = 2%nat.
Proof.
  destruct (@X6_analysis_of_gutenberg_url Fixture.web_down Stub.genai_down
              Stub.alice Stub.w0 eq_refl)
    as (r & w' & target & sp & gp & Heq & _ & Herr & _ & _ & Hllm).
  exists r, w'. split; [exact Heq|]. split; [|split].
  - exact Herr.
  - assert (w' = snd (@URLAnalyzer.analyze_url Fixture.web_down
                        (@GeminiLLM.gemini_llm Stub.genai_down)
                        Stub.alice Stub.w0)) as -> by (rewrite Heq; reflexivity).
    reflexivity.
  - rewrite Hllm. reflexivity.
Defined.

(** X7: when every page request fails, the analysis of a Gutenberg URL
    still returns a record without [error]: the metadata are the
    "Unknown" placeholders and the content is the text of the
    extraction error, which is also what the model is asked to
    summarise. *)
Theorem X7_analysis_with_network_down `{Web} `{GenAI}
    (url : string) (w : World) (e : exn) :
  Py.str_in "gutenberg.org" url = true ->
  (forall requests u, fetch requests u = Raise e) ->
  exists r w' genre_prompt,
    @URLAnalyzer.analyze_url _ GeminiLLM.gemini_llm url w = (Ret r, w') /\
    r !! "error" = None /\
    r !! "title" = Some "Unknown Title" /\
    r !! "author" = Some "Unknown Author" /\
    r !! "language" = Some "Unknown" /\
    r !! "year" = Some "Unknown" /\
    r !! "content" =
      Some (URLAnalyzer.content_sample ("Error extracting content from URL: " +:+ e)) /\
    llm_log w' =
      genre_prompt
      :: URLAnalyzer.summary_prompt "Unknown Title" "Unknown Author"
           (URLAnalyzer.content_sample ("Error extracting content from URL: " +:+ e))
      :: llm_log w.
Proof.
  intros Hg Hdown. unfold URLAnalyzer.analyze_url. rewrite Hg. cbn [negb].
  unfold try_except at 1. unfold bind at 1.
  unfold URLAnalyzer._extract_metadata_from_url, try_except, bind,
    URLAnalyzer.session_get. rewrite Hdown. unfold print, ret.
  cbn [http_log llm_log stdout].
  unfold URLAnalyzer._get_content_url, try_except, bind,
    URLAnalyzer.session_get. rewrite Hdown. unfold print, ret.
  cbn [http_log llm_log stdout].
  unfold URLAnalyzer.extract_text_from_url, try_except, bind,
    URLAnalyzer.session_get. rewrite Hdown. unfold ret.
  cbn [http_log llm_log stdout].
  match goal with
  | |- context [URLAnalyzer._analyze_content_with_gemini ?c ?md ?w3] =>
      destruct (analyze_content_gemini c md w3) as (sm & g & out3 & Ha)
  end.
  rewrite Ha. cbn [llm_log].
  eexists _, _, _. split; [reflexivity|].
  unfold dict_merge.
  repeat split;
    try (rewrite lookup_insert_ne by discriminate;
         first [ apply lookup_union_None_2; reflexivity
               | apply lookup_union_Some_l; reflexivity
               | rewrite lookup_union_r by reflexivity; reflexivity ]).
Qed.

Lemma X7_analysis_with_network_down_witness :
  exists r w',
    @URLAnalyzer.analyze_url Fixture.web_down
      (@GeminiLLM.gemini_llm Fixture.genai_ok) Stub.alice Stub.w0 = (Ret r, w') /\
    r !! "title" = Some "Unknown Title" /\
    r !! "content" = Some "Error extracting content from URL: connection refused" /\
    r !! "summary" = Some "A fine book.".
Proof.
  destruct (@X7_analysis_with_network_down Fixture.web_down Fixture.genai_ok
              Stub.alice Stub.w0 "connection refused" eq_refl (fun _ _ => eq_refl))
    as (r & w' & gp & Heq & _ & Ht & _ & _ & _ & Hc & _).
  exists r, w'. split; [exact Heq|]. split; [exact Ht|]. split; [exact Hc|].
  assert (r = value_or ∅ (fst (@URLAnalyzer.analyze_url Fixture.web_down
                                 (@GeminiLLM.gemini_llm Fixture.genai_ok)
                                 Stub.alice Stub.w0))) as ->
    by (rewrite Heq; reflexivity).
  vm_compute. reflexivity.
Defined.

(** ** Size of what is sent and stored *)

Lemma len_app (a b : string) : Py.len (a +:+ b) = Py.len a + Py.len b.
Proof. unfold Py.len. rewrite length_app. lia. Qed.

Lemma len_slice_prefix (s : string) (n : Z) :
  0 <= n -> Py.len (Py.slice s None (Some n)) = Z.min n (Py.len s).
Proof.
  intros Hn. rewrite slice_prefix by exact Hn. rewrite len_str_take. lia.
Qed.

Lemma segment_lengths (content : string) :
  Py.len content > 16000 ->
  Py.len (URLAnalyzer.beginning content) = 5333 /\
  Py.len (URLAnalyzer.middle content) = 5333 /\
  Py.len (URLAnalyzer.end_ content) = 5333.
Proof.
  intros HL. pose proof (middle_start_eq content HL) as Hms.
  assert (0 <= Py.len content / 2 - 2667 /\
          Py.len content / 2 - 2667 + 5333 <= Py.len content) as [Hlo Hhi].
  { Z.div_mod_to_equations. lia. }
  split; [|split].
  - unfold URLAnalyzer.beginning. rewrite int_third, len_slice_prefix; lia.
  - unfold URLAnalyzer.middle. rewrite int_third, Hms.
    rewrite slice_inside, len_str_take, len_str_drop by lia. lia.
  - unfold URLAnalyzer.end_. rewrite int_third.
    rewrite (slice_suffix content 5333), len_str_drop by lia. lia.
Qed.

(** X8: sizes of what the analysis step stores and sends, with the
    Gemini wrapper.  The content sample has at most 16066 characters
    (three segments of 5333 and the two markers): a text of at most
    16000 characters is its own sample, a longer one gives exactly
    16066.  The step stores that whole sample as [content], sends the
    summary prompt over it and then the genre prompt over an excerpt
    that is the first min(8000, length) characters of the sample. *)
Theorem X8_sample_is_bounded `{GenAI} (content : string) (metadata : dict)
    (w : World) :
  Py.len (URLAnalyzer.content_sample content) <= 16066 /\
  (Py.len content <= 16000 -> URLAnalyzer.content_sample content = content) /\
  (Py.len content > 16000 ->
   Py.len (URLAnalyzer.content_sample content) = 16066) /\
  exists summary genre excerpt rest w',
    @URLAnalyzer._analyze_content_with_gemini GeminiLLM.gemini_llm
      content metadata w =
      (Ret {[ "summary" := summary; "genre" := genre;
              "content" := URLAnalyzer.content_sample content ]}, w') /\
    llm_log w' =
      URLAnalyzer.genre_prompt (dict_get metadata "title" "Unknown Title")
        (dict_get metadata "author" "Unknown Author") excerpt
      :: URLAnalyzer.summary_prompt (dict_get metadata "title" "Unknown Title")
           (dict_get metadata "author" "Unknown Author")
           (URLAnalyzer.content_sample content)
      :: llm_log w /\
    URLAnalyzer.content_sample content = excerpt +:+ rest /\
    Py.len excerpt = Z.min 8000 (Py.len (URLAnalyzer.content_sample content)).
Proof.
  assert (Py.len content > 16000 ->
          Py.len (URLAnalyzer.content_sample content) = 16066) as Hlong.
  { intros HL. destruct (segment_lengths content HL) as (Hb & Hm & He).
    unfold URLAnalyzer.content_sample, URLAnalyzer.max_content_length.
    assert ((Py.len content >? 16000) = true) as -> by lia.
    rewrite !len_app, Hb, Hm, He. reflexivity. }
  assert (Py.len content <= 16000 -> URLAnalyzer.content_sample content = content)
    as Hshort.
  { intros HL. unfold URLAnalyzer.content_sample, URLAnalyzer.max_content_length.
    assert ((Py.len content >? 16000) = false) as -> by lia. reflexivity. }
  split; [|split; [exact Hshort|split; [exact Hlong|]]].
  - destruct (Z_le_gt_dec (Py.len content) 16000) as [Hle|Hgt].
    + rewrite (Hshort Hle). lia.
    + rewrite (Hlong Hgt). lia.
  - destruct (analyze_content_gemini content metadata w)
      as (summary & genre & out & Ha).
    rewrite slice_prefix in Ha by lia.
    eexists summary, genre, _, _, _. split; [exact Ha|].
    split; [reflexivity|]. split.
    + symmetry. apply str_take_drop.
    + rewrite len_str_take. lia.
Qed.

(** * Further properties of the URL agent *)

Section AgentEdges.
Context `{Web} `{LLM}.

(** X9: for a URL that does not contain "gutenberg.org" the agent asks
    neither the network nor the model, and only the chat answer shows
    the reason: the summary is "Unable to generate summary", the genre
    "Unable to classify genre", the chat answer "Error: " followed by
    the analyzer's message. *)
Theorem X9_agent_on_foreign_url (url query : string) (w : World) :
  Py.str_in "gutenberg.org" url = false ->
  URLAgent.get_book_summary url w = (Ret "Unable to generate summary", w) /\
  URLAgent.classify_genre url w = (Ret "Unable to classify genre", w) /\
  URLAgent.chat_with_url url query w =
    (Ret "Error: This URL does not appear to be from Project Gutenberg. Please provide a valid Project Gutenberg URL.", w).
Proof.
  intros Hno.
  unfold URLAgent.get_book_summary, URLAgent.classify_genre,
    URLAgent.chat_with_url, URLAgent.analyze_url, bind,
    URLAnalyzer.analyze_url.
  rewrite Hno. repeat split; reflexivity.
Qed.

(** X10: when the analysis has no content (the text of the page is
    empty once cleaned), the chat answer is "No content available for
    URL: " followed by the URL and the chat prompt is never built: the
    world is the one the analysis left. *)
Theorem X10_chat_without_content (url query : string) (analysis : dict)
    (w w1 : World) :
  URLAgent.analyze_url url w = (Ret analysis, w1) ->
  dict_has analysis "error" = false ->
  Py.truthy (dict_get analysis "content" "") = false ->
  URLAgent.chat_with_url url query w =
    (Ret ("No content available for URL: " +:+ url), w1).
Proof.
  intros Han Herr Hc. unfold URLAgent.chat_with_url, bind.
  rewrite Han, Herr, Hc. reflexivity.
Qed.

(** X11: when the model client cannot be built in the chat path, no
    prompt is sent.  With more than 8000 characters of content the
    answer is the length apology (the name [llm] is unbound in the
    fallback, whose own handler answers), otherwise it is the error
    string carrying the construction error. *)
Theorem X11_chat_without_client (url query : string) (analysis : dict)
    (w w1 w2 : World) (e : exn) :
  URLAgent.analyze_url url w = (Ret analysis, w1) ->
  dict_has analysis "error" = false ->
  Py.truthy (dict_get analysis "content" "") = true ->
  get_llm w1 = (Raise e, w2) ->
  URLAgent.chat_with_url url query w =
    (Ret (if Py.len (dict_get analysis "content" "") >? 8000
          then "I'm sorry, but I couldn't process your query about '"
               +:+ dict_get analysis "title" "Unknown Title"
               +:+ "' due to content length limitations. Please try asking a more specific question."
          else "Error processing your query about '"
               +:+ dict_get analysis "title" "Unknown Title" +:+ "': " +:+ e),
     w2).
Proof.
  intros Han Herr Hc Hllm. unfold URLAgent.chat_with_url, bind.
  rewrite Han, Herr, Hc. cbn [negb]. rewrite Hllm.
  unfold URLAgent.chat_fallback.
  destruct (Py.len (dict_get analysis "content" "") >? 8000); reflexivity.
Qed.

End AgentEdges.

Lemma X9_agent_on_foreign_url_witness :
  @URLAgent.get_book_summary (Stub.web_const (Stub.book_page "Alice"))
    Stub.llm_ok "https://example.com/book.txt" Stub.w0 =
  (Ret "Unable to generate summary", Stub.w0).
Proof.
  apply (@X9_agent_on_foreign_url (Stub.web_const (Stub.book_page "Alice"))
           Stub.llm_ok "https://example.com/book.txt" "" Stub.w0 eq_refl).
Defined.

Lemma X10_chat_without_content_witness :
  exists w1,
    @URLAgent.chat_with_url (Stub.web_const (Stub.book_page "   "))
      Stub.llm_ok Stub.alice "Who is Alice?" Stub.w0 =
    (Ret "No content available for URL: https://www.gutenberg.org/ebooks/11", w1) /\
    List.length (llm_log w1) = 2%nat.
Proof.
  set (a := @URLAgent.analyze_url (Stub.web_const (Stub.book_page "   "))
              Stub.llm_ok Stub.alice Stub.w0).
  exists (snd a). split.
  - apply (@X10_chat_without_content (Stub.web_const (Stub.book_page "   "))
             Stub.llm_ok Stub.alice "Who is Alice?" (value_or ∅ (fst a))
             Stub.w0 (snd a)); reflexivity.
  - reflexivity.
Defined.

Lemma X11_chat_without_client_witness :
  exists w2,
    @URLAgent.chat_with_url (Stub.web_const (Stub.book_page "Alice"))
      (@GeminiLLM.gemini_llm Fixture.genai_no_key) Stub.alice "Who is Alice?"
      Stub.w0 =
    (Ret "Error processing your query about 'Alice's Adventures in Wonderland': GEMINI_API_KEY environment variable not set",
     w2) /\
    List.length (llm_log w2) = 2%nat.
Proof.
  set (a := @URLAgent.analyze_url (Stub.web_const (Stub.book_page "Alice"))
              (@GeminiLLM.gemini_llm Fixture.genai_no_key) Stub.alice Stub.w0).
  exists (snd a). split.
  - apply (@X11_chat_without_client (Stub.web_const (Stub.book_page "Alice"))
             (@GeminiLLM.gemini_llm Fixture.genai_no_key) Stub.alice
             "Who is Alice?" (value_or ∅ (fst a)) Stub.w0 (snd a) (snd a)
             "GEMINI_API_KEY environment variable not set"); reflexivity.
  - reflexivity.
Defined.

(** * Further properties of the router *)

Section RouterEdges.
Context `{Web} `{LLM}.

(** A Gutenberg URL never gives an error record, whatever the model. *)
Lemma gutenberg_analysis_no_error (url : string) (w w' : World) (r : dict) :
  Py.str_in "gutenberg.org" url = true ->
  URLAnalyzer.analyze_url url w = (Ret r, w') ->
  r !! "error" = None /\ r !! "url" = Some url /\ dict_truthy (Some r) = true.
Proof.
  intros Hg. unfold URLAnalyzer.analyze_url. rewrite Hg. cbn [negb].
  unfold try_except, bind.
  destruct (metadata_total url w) as (m & out1 & -> & Hdom).
  match goal with
  | |- context [URLAnalyzer._get_content_url url ?w1] =>
      destruct (content_url_total url w1) as (cu & out2 & ->)
  end.
  match goal with
  | |- context [match ?m0 ?w2 with _ => _ end] =>
      assert (exists text w3, m0 w2 = (Ret text, w3)) as (text & w3 & ->)
  end.
  { destruct cu as [u|]; [destruct (Py.truthy u)|];
      match goal with
      | |- context [URLAnalyzer.extract_text_from_url ?u0 ?w2] =>
          destruct (extract_text_total u0 w2) as (text & ->)
      end; eauto. }
  destruct (URLAnalyzer._analyze_content_with_gemini text m w3)
    as [[a|e] w4] eqn:Ha.
  2:{ exfalso. revert Ha.
      unfold URLAnalyzer._analyze_content_with_gemini, try_except, bind, ret.
      destruct (invoke _ w3) as [[?|?] ?]; [|discriminate].
      destruct (invoke _ _) as [[?|?] ?]; discriminate. }
  destruct (analyze_content_shape _ _ _ _ _ Ha) as (sm & g & c & ->).
  unfold ret, dict_merge. intros [= <- <-].
  assert (m !! "error" = None) as Hme.
  { apply not_elem_of_dom. rewrite Hdom. set_unfold. intuition discriminate. }
  split; [|split].
  - rewrite lookup_insert_ne by discriminate.
    apply lookup_union_None_2; [reflexivity|exact Hme].
  - apply lookup_insert_eq.
  - unfold dict_truthy. rewrite bool_decide_eq_false_2; [reflexivity|].
    intros Hempty. apply (f_equal (fun d : dict => d !! "url")) in Hempty.
    rewrite lookup_insert_eq, lookup_empty in Hempty. discriminate.
Qed.

(** X12: with no URL at hand (none passed or an empty one, and none or
    an empty one stored), every query is answered with the error
    record, and nothing else happens. *)
Theorem X12_query_without_url (query : string) (cur : option string) (s : State) :
  Py.truthy_opt cur = false ->
  Py.truthy_opt (Self.current_url (session s)) = false ->
  AgentSystem.process_user_query query cur s =
    (Ret {[ "type" := "error";
            "content" := "Please provide a Project Gutenberg URL first." ]}, s).
Proof.
  intros Hc Hs. unfold AgentSystem.process_user_query, bind.
  rewrite extract_url_reference_eq, Hc, Hs.
  destruct cur as [[|c u]|]; try discriminate; reflexivity.
Qed.

(** X13: [process_user_query] never raises and never writes the
    session.  Its answer has a content and one of the four types; the
    type is "error" exactly when no URL is at hand; every other answer
    carries the title of the cached record ("Unknown Title" without
    one), and only a chat answer repeats the query. *)
Theorem X13_answers_are_typed (query : string) (cur : option string) (s : State) :
  exists d w',
    AgentSystem.process_user_query query cur s = (Ret d, mkState (session s) w') /\
    (d !! "type" = Some "error" \/ d !! "type" = Some "summary" \/
     d !! "type" = Some "genre" \/ d !! "type" = Some "chat") /\
    is_Some (d !! "content") /\
    (d !! "type" = Some "error" <->
     Py.truthy_opt cur || Py.truthy_opt (Self.current_url (session s)) = false) /\
    (d !! "type" <> Some "error" ->
     d !! "title" = Some (AgentSystem.title_of (session s))) /\
    (d !! "type" = Some "chat" <-> d !! "query" = Some query).
Proof.
  destruct (Py.truthy_opt cur || Py.truthy_opt (Self.current_url (session s)))
    eqn:Hor.
  - destruct (resolved_url query cur s Hor) as (url & Hu & Hres & _).
    destruct (Py.str_in "summarize" (Py.lower query)
              || Py.str_in "summary" (Py.lower query)) eqn:Hs;
      [|destruct (Py.str_in "genre" (Py.lower query)
                  || Py.str_in "classify" (Py.lower query)) eqn:Hg].
    + destruct (get_book_summary_frame url s) as (v & w' & Hv).
      rewrite (process_user_query_summary _ _ _ _ Hres Hu Hs _ _ Hv).
      eexists _, w'. split; [reflexivity|].
      repeat split; try (right; left; reflexivity); try discriminate; eauto.
    + destruct (classify_genre_frame url s) as (v & w' & Hv).
      rewrite (process_user_query_genre _ _ _ _ Hres Hu Hs Hg _ _ Hv).
      eexists _, w'. split; [reflexivity|].
      repeat split; try (right; right; left; reflexivity); try discriminate; eauto.
    + destruct (chat_with_url_frame url query s) as (v & w' & Hv).
      rewrite (process_user_query_chat _ _ _ _ Hres Hu Hs Hg _ _ Hv).
      eexists _, w'. split; [reflexivity|].
      repeat split; try (right; right; right; reflexivity); try discriminate; eauto.
  - apply orb_false_iff in Hor as [Hc Hs].
    rewrite (process_user_query_unresolved _ _ _ Hc Hs).
    eexists _, (world s). split; [destruct s; reflexivity|].
    repeat split; try (left; reflexivity); try discriminate; eauto.
    intros Hne. exfalso. apply Hne. reflexivity.
Qed.

(** X14: the URL a query is answered for does not depend on the query:
    it is the URL passed when that is non-empty, else the stored URL
    when that is non-empty.  The test for "the book", "this book" and
    "current book" changes nothing. *)
Theorem X14_resolution_ignores_the_query (cur : option string) (s : State) :
  (forall query,
     AgentSystem._extract_url_reference query cur s =
       (Ret (if Py.truthy_opt cur then cur
             else if Py.truthy_opt (Self.current_url (session s))
                  then Self.current_url (session s) else cur), s)) /\
  (forall query1 query2,
     AgentSystem._extract_url_reference query1 cur s =
     AgentSystem._extract_url_reference query2 cur s).
Proof.
  split.
  - intros query. apply extract_url_reference_eq.
  - intros q1 q2. rewrite !extract_url_reference_eq. reflexivity.
Qed.

(** X15: a rejected URL is cached like any other.  After
    [analyze_url] on a URL without "gutenberg.org" the session holds
    that URL and the error record and the world is untouched; a
    summary query without explicit URL is then answered from this
    record, with the default texts, and a genre query likewise. *)
Theorem X15_rejection_is_cached (url query : string) (s0 : State) :
  Py.str_in "gutenberg.org" url = false ->
  Py.truthy url = true ->
  let rejected : dict :=
    {[ "error" := "This URL does not appear to be from Project Gutenberg. Please provide a valid Project Gutenberg URL." ]} in
  let s1 := mkState (mkSession (Some url) (Some rejected)) (world s0) in
  AgentSystem.analyze_url url s0 = (Ret rejected, s1) /\
  (Py.str_in "summarize" (Py.lower query)
   || Py.str_in "summary" (Py.lower query) = true ->
   AgentSystem.process_user_query query None s1 =
     (Ret {[ "type" := "summary"; "title" := "Unknown Title";
             "content" := "Unable to generate summary" ]}, s1)) /\
  (Py.str_in "summarize" (Py.lower query)
   || Py.str_in "summary" (Py.lower query) = false ->
   Py.str_in "genre" (Py.lower query)
   || Py.str_in "classify" (Py.lower query) = true ->
   AgentSystem.process_user_query query None s1 =
     (Ret {[ "type" := "genre"; "title" := "Unknown Title";
             "content" := "Unable to classify genre" ]}, s1)).
Proof.
  intros Hno Hu rejected s1.
  assert (AgentSystem._extract_url_reference query None s1 = (Ret (Some url), s1))
    as Hres.
  { rewrite extract_url_reference_eq. cbn. rewrite Hu. reflexivity. }
  split; [|split].
  - unfold AgentSystem.analyze_url, bind, set_current_url, lift,
      URLAgent.analyze_url, URLAnalyzer.analyze_url. cbn [world session].
    rewrite Hno. reflexivity.
  - intros Hs.
    rewrite (process_user_query_summary _ _ _ _ Hres Hu Hs
               "Unable to generate summary" s1); [reflexivity|].
    rewrite get_book_summary_hit; reflexivity.
  - intros Hs Hg.
    rewrite (process_user_query_genre _ _ _ _ Hres Hu Hs Hg
               "Unable to classify genre" s1); [reflexivity|].
    rewrite classify_genre_hit; reflexivity.
Qed.

(** X16: right after an analysis of [url] that produced a record, a
    genre query (one that is not a summary query) asked without an
    explicit URL, or with that same URL, is answered with exactly the
    [genre] field of the cached record and the state does not change:
    no page is requested and no prompt is sent. *)
Theorem X16_genre_served_from_cache
    (url query : string) (cur : option string) (s0 s1 : State) (r : dict) :
  AgentSystem.analyze_url url s0 = (Ret r, s1) ->
  dict_has r "error" = false ->
  Py.str_in "summarize" (Py.lower query)
  || Py.str_in "summary" (Py.lower query) = false ->
  Py.str_in "genre" (Py.lower query)
  || Py.str_in "classify" (Py.lower query) = true ->
  Py.truthy_opt cur = false \/ cur = Some url ->
  exists genre d,
    r !! "genre" = Some genre /\
    AgentSystem.process_user_query query cur s1 = (Ret d, s1) /\
    d !! "type" = Some "genre" /\
    d !! "content" = Some genre.
Proof.
  intros Han Hok Hns Hint Hcur.
  destruct (agent_system_analyze_url_eq url s0) as (r' & w' & Hr & Heq).
  rewrite Heq in Han. injection Han as -> <-.
  destruct (analyzer_record_shape _ _ _ _ Hr Hok) as (Hg & [sm Hsum] & [genre Hgen] & _).
  assert (Py.truthy url = true) as Hu.
  { destruct url; [discriminate Hg|reflexivity]. }
  assert (dict_truthy (Some r) = true) as Hne.
  { unfold dict_truthy. rewrite bool_decide_eq_false_2; [reflexivity|].
    intros ->. rewrite lookup_empty in Hsum. discriminate. }
  set (s1 := mkState (mkSession (Some url) (Some r)) w').
  assert (AgentSystem._extract_url_reference query cur s1 = (Ret (Some url), s1))
    as Hres.
  { rewrite extract_url_reference_eq. cbn [s1 session Self.current_url].
    destruct Hcur as [-> | ->]; cbn [Py.truthy_opt]; rewrite Hu; reflexivity. }
  exists genre. eexists. split; [exact Hgen|]. split.
  - apply (process_user_query_genre _ _ _ _ Hres Hu Hns Hint).
    apply classify_genre_hit; [reflexivity|exact Hne].
  - subst s1. cbn [session Self.current_analysis].
    change (default ∅ (Some r)) with r. unfold dict_get at 2.
    rewrite Hgen. split; reflexivity.
Qed.

End RouterEdges.

Lemma X12_query_without_url_witness :
  @AgentSystem.process_user_query (Stub.web_const (Stub.book_page "Alice"))
    Stub.llm_ok "summarize this book" (Some "")
    (mkState AgentSystem.__init__ Stub.w0) =
  (Ret {[ "type" := "error";
          "content" := "Please provide a Project Gutenberg URL first." ]},
   mkState AgentSystem.__init__ Stub.w0).
Proof.
  apply (@X12_query_without_url (Stub.web_const (Stub.book_page "Alice"))
           Stub.llm_ok "summarize this book" (Some "")
           (mkState AgentSystem.__init__ Stub.w0)); reflexivity.
Defined.

Lemma X15_rejection_is_cached_witness :
  let s1 := mkState
              (mkSession (Some "https://example.com/book.txt")
                 (Some {[ "error" := "This URL does not appear to be from Project Gutenberg. Please provide a valid Project Gutenberg URL." ]}))
              Stub.w0 in
  @AgentSystem.process_user_query (Stub.web_const (Stub.book_page "Alice"))
    Stub.llm_ok "Summarize this book" None s1 =
  (Ret {[ "type" := "summary"; "title" := "Unknown Title";
          "content" := "Unable to generate summary" ]}, s1).
Proof.
  intros s1.
  destruct (@X15_rejection_is_cached (Stub.web_const (Stub.book_page "Alice"))
              Stub.llm_ok "https://example.com/book.txt" "Summarize this book"
              (mkState AgentSystem.__init__ Stub.w0) eq_refl eq_refl)
    as (_ & Hsum & _).
  apply Hsum. reflexivity.
Defined.

Lemma X16_genre_served_from_cache_witness :
  let web := Stub.web_const (Stub.book_page "Alice was beginning to get very tired") in
  let s1 := snd (@AgentSystem.analyze_url web Stub.llm_ok Stub.alice
                   (mkState AgentSystem.__init__ Stub.w0)) in
  exists d,
    @AgentSystem.process_user_query web Stub.llm_ok
      "What is the genre of the book?" None s1 = (Ret d, s1) /\
    d !! "type" = Some "genre".
Proof.
  intros web s1.
  destruct (@X16_genre_served_from_cache web Stub.llm_ok Stub.alice
              "What is the genre of the book?" None
              (mkState AgentSystem.__init__ Stub.w0) s1
              (default ∅ (Self.current_analysis (session s1))))
    as (genre & d & _ & Hpq & Hty & _).
  - vm_compute. reflexivity.
  - vm_compute. reflexivity.
  - reflexivity.
  - reflexivity.
  - left. reflexivity.
  - exists d. split; [exact Hpq|exact Hty].
Defined.

(** ** The chat path with the Gemini wrapper *)

Section GeminiChat.
Context `{Web} `{GenAI}.

Lemma chat_gemini_effects (url query : string) (w : World) :
  Py.str_in "gutenberg.org" url = true ->
  exists v w' target summary_prompt genre_prompt chat_prompts,
    @URLAgent.chat_with_url _ GeminiLLM.gemini_llm url query w = (Ret v, w') /\
    http_log w' = target :: url :: url :: http_log w /\
    llm_log w' = chat_prompts ++ genre_prompt :: summary_prompt :: llm_log w /\
    (List.length chat_prompts <= 1)%nat.
Proof.
  intros Hg.
  destruct (gutenberg_analysis_effects url w Hg)
    as (r & w1 & target & sp & gp & Heq & Hdom & _ & Hhttp & Hllm).
  unfold URLAgent.chat_with_url, URLAgent.analyze_url, bind. rewrite Heq.
  assert (dict_has r "error" = false) as ->.
  { unfold dict_has. apply bool_decide_eq_false_2. rewrite <- elem_of_dom, Hdom.
    set_unfold. intuition discriminate. }
  destruct (negb (Py.truthy (dict_get r "content" ""))).
  { unfold ret. eexists _, w1, target, sp, gp, []. repeat split; eauto. }
  cbn [get_llm invoke GeminiLLM.gemini_llm]. unfold GeminiLLM.__init__.
  destruct (negb (Py.truthy gemini_api_key)).
  - unfold raise, URLAgent.chat_fallback.
    destruct (Py.len (dict_get r "content" "") >? 8000);
      unfold try_except, raise, ret;
      eexists _, w1, target, sp, gp, []; repeat split; eauto.
  - unfold ret, try_except.
    match goal with
    | |- context [GeminiLLM._call ?p w1] =>
        destruct (gemini_call_world p w1) as (t & out & ->);
        eexists t, _, target, sp, gp, [p]
    end.
    cbn [http_log llm_log]. rewrite Hhttp, Hllm. repeat split; eauto.
Qed.

(** X17: a chat query never uses the cache.  Whatever the session
    holds, a chat-intent query about a Gutenberg URL runs the whole
    analysis again (three page requests and the two analysis prompts)
    before at most one chat prompt is sent; the session is not
    written. *)
Theorem X17_chat_always_reanalyses (query : string) (cur : option string)
    (s : State) (url : string) :
  AgentSystem._extract_url_reference query cur s = (Ret (Some url), s) ->
  Py.str_in "gutenberg.org" url = true ->
  Py.str_in "summarize" (Py.lower query)
  || Py.str_in "summary" (Py.lower query) = false ->
  Py.str_in "genre" (Py.lower query)
  || Py.str_in "classify" (Py.lower query) = false ->
  exists d w' target summary_prompt genre_prompt chat_prompts,
    @AgentSystem.process_user_query _ GeminiLLM.gemini_llm query cur s =
      (Ret d, mkState (session s) w') /\
    d !! "type" = Some "chat" /\
    http_log w' = target :: url :: url :: http_log (world s) /\
    llm_log w' =
      chat_prompts ++ genre_prompt :: summary_prompt :: llm_log (world s) /\
    (List.length chat_prompts <= 1)%nat.
Proof.
  intros Hres Hg Hns Hng.
  assert (Py.truthy url = true) as Hu.
  { destruct url; [discriminate Hg|reflexivity]. }
  destruct (chat_gemini_effects url query (world s) Hg)
    as (v & w' & target & sp & gp & cps & Hchat & Hhttp & Hllm & Hlen).
  exists {[ "type" := "chat"; "title" := AgentSystem.title_of (session s);
            "query" := query; "content" := v ]}, w', target, sp, gp, cps.
  split; [|repeat split; assumption].
  apply (process_user_query_chat _ _ _ _ Hres Hu Hns Hng v
           (mkState (session s) w')).
  unfold AgentSystem.chat_with_url, lift. rewrite Hchat. reflexivity.
Qed.

End GeminiChat.

Lemma X17_chat_always_reanalyses_witness :
  let web := Stub.web_const (Stub.book_page "Alice was beginning to get very tired") in
  let llm := @GeminiLLM.gemini_llm Fixture.genai_ok in
  let s1 := snd (@AgentSystem.analyze_url web llm Stub.alice
                   (mkState AgentSystem.__init__ Stub.w0)) in
  exists d w',
    @AgentSystem.process_user_query web llm "Who is Alice?" None s1 =
      (Ret d, mkState (session s1) w') /\
    List.length (http_log (world s1)) = 3%nat /\
    List.length (http_log w') = 6%nat.
Proof.
  intros web llm s1.
  destruct (@X17_chat_always_reanalyses web Fixture.genai_ok "Who is Alice?"
              None s1 Stub.alice)
    as (d & w' & target & sp & gp & cps & Hpq & _ & Hhttp & _).
  - reflexivity.
  - reflexivity.
  - reflexivity.
  - reflexivity.
  - exists d, w'. split; [exact Hpq|]. split; [reflexivity|].
    rewrite Hhttp. reflexivity.
Defined.

(** * Properties of the page *)

Lemma gutenberg_prefix (url : string) :
  String.prefix "https://www.gutenberg.org" url = true ->
  Py.str_in "gutenberg.org" url = true.
Proof.
  intros [post ->]%prefix_app. apply str_in_spec.
  exists "https://www.", post. reflexivity.
Qed.

Section Page.
Context `{Web} `{LLM} `{ExceptionTypes}.

(** What [analyze_url] of the page does, in both cases. *)
Lemma app_analyze_url_eq (url : string) (app : App.t) :
  (String.prefix "https://www.gutenberg.org" url = false ->
   Streamlit.analyze_url url app =
     (Ret tt,
      App.mk (App.agent_system app) (App.current_url app)
        (App.current_analysis app)
        (UiError "Please enter a valid Project Gutenberg book URL (starting with https://www.gutenberg.org)"
         :: App.screen app))) /\
  (String.prefix "https://www.gutenberg.org" url = true ->
   exists r w',
     URLAnalyzer.analyze_url url (world (App.agent_system app)) = (Ret r, w') /\
     r !! "error" = None /\ r !! "url" = Some url /\
     Streamlit.analyze_url url app =
       (Ret tt,
        App.mk (mkState (mkSession (Some url) (Some r)) w') (Some url) (Some r)
          (UiSuccess ("Successfully analyzed '" +:+ dict_get r "title" "Unknown"
                      +:+ "' by " +:+ dict_get r "author" "Unknown" +:+ "!")
           :: UiSpinner ("Analyzing content from " +:+ url +:+ "...")
           :: App.screen app))).
Proof.
  unfold Streamlit.analyze_url. split; intros Hp; rewrite Hp; cbn [negb].
  - reflexivity.
  - destruct (agent_system_analyze_url_eq url (App.agent_system app))
      as (r & w' & Hr & Heq).
    destruct (gutenberg_analysis_no_error url _ _ r (gutenberg_prefix url Hp) Hr)
      as (Herr & Hurl & _).
    exists r, w'. split; [exact Hr|]. split; [exact Herr|]. split; [exact Hurl|].
    unfold bind, Streamlit.st, Streamlit.agent. cbn [App.agent_system].
    rewrite Heq. unfold dict_has. rewrite Herr.
    rewrite bool_decide_eq_false_2 by (intros [? [=]]).
    reflexivity.
Qed.

(** X18: [analyze_url] of the page.  A URL that does not start with
    "https://www.gutenberg.org" only shows an error: the agent is not
    called and the session state is kept.  Any other URL is analysed
    and always accepted: the page and the agent both store the URL and
    the record, which has no [error] key, and the success message is
    shown; the branch "Failed to analyze the URL" is never taken. *)
Theorem X18_page_analyze_url (url : string) (app : App.t) :
  exists app',
    Streamlit.analyze_url url app = (Ret tt, app') /\
    (String.prefix "https://www.gutenberg.org" url = false ->
     App.agent_system app' = App.agent_system app /\
     App.current_url app' = App.current_url app /\
     App.current_analysis app' = App.current_analysis app /\
     App.screen app' =
       UiError "Please enter a valid Project Gutenberg book URL (starting with https://www.gutenberg.org)"
       :: App.screen app) /\
    (String.prefix "https://www.gutenberg.org" url = true ->
     exists r,
       r !! "error" = None /\ r !! "url" = Some url /\
       App.current_url app' = Some url /\
       App.current_analysis app' = Some r /\
       session (App.agent_system app') = mkSession (Some url) (Some r) /\
       App.screen app' =
         UiSuccess ("Successfully analyzed '" +:+ dict_get r "title" "Unknown"
                    +:+ "' by " +:+ dict_get r "author" "Unknown" +:+ "!")
         :: UiSpinner ("Analyzing content from " +:+ url +:+ "...")
         :: App.screen app).
Proof.
  destruct (app_analyze_url_eq url app) as [Hbad Hgood].
  destruct (String.prefix "https://www.gutenberg.org" url) eqn:Hp.
  - destruct (Hgood eq_refl) as (r & w' & _ & Herr & Hurl & ->).
    eexists. split; [reflexivity|]. split; [discriminate|].
    intros _. exists r. repeat split; assumption.
  - rewrite (Hbad eq_refl). eexists. split; [reflexivity|].
    split; [|discriminate]. intros _. repeat split.
Qed.

(** [display_analysis_info] only draws. *)
Lemma display_analysis_info_eq (analysis : dict) (app : App.t) :
  exists scr,
    Streamlit.display_analysis_info analysis app =
      (Ret tt,
       App.mk (App.agent_system app) (App.current_url app)
         (App.current_analysis app) scr).
Proof.
  unfold Streamlit.display_analysis_info, bind, Streamlit.st, ret.
  cbn [App.agent_system App.current_url App.current_analysis App.screen].
  destruct (dict_has analysis "summary" && _),
    (dict_has analysis "content" && _);
    cbn [App.agent_system App.current_url App.current_analysis App.screen];
    eauto.
Qed.

(** [process_user_query] of the page never raises; it shows the answer
    and leaves the session state as the agent leaves it. *)
Lemma app_process_user_query_eq (query : string) (cur : option string)
    (app : App.t) :
  exists d w' shown,
    AgentSystem.process_user_query query cur (App.agent_system app) =
      (Ret d, mkState (session (App.agent_system app)) w') /\
    Streamlit.process_user_query query cur app =
      (Ret tt,
       App.mk (mkState (session (App.agent_system app)) w')
         (App.current_url app) (App.current_analysis app)
         (shown ++ UiSpinner "Processing your query..." :: App.screen app)) /\
    (dict_get d "type" "unknown" = "summary" \/
     dict_get d "type" "unknown" = "genre" ->
     shown = [UiWrite (dict_get d "content" "No content available");
              UiSubheader ((if bool_decide (dict_get d "type" "unknown" = "summary")
                            then "Summary of '" else "Genre Classification for '")
                           +:+ dict_get d "title" "Unknown" +:+ "'")]).
Proof.
  destruct (process_user_query_frame query cur (App.agent_system app))
    as (d & w' & Hpq & _).
  exists d, w'.
  unfold Streamlit.process_user_query, bind, try_except, Streamlit.st,
    Streamlit.agent.
  cbn [App.agent_system App.current_url App.current_analysis App.screen].
  rewrite Hpq.
  destruct (bool_decide (dict_get d "type" "unknown" = "error")) eqn:He;
    [|destruct (bool_decide (dict_get d "type" "unknown" = "summary")) eqn:Hs;
      [|destruct (bool_decide (dict_get d "type" "unknown" = "genre")) eqn:Hg;
        [|destruct (bool_decide (dict_get d "type" "unknown" = "chat")) eqn:Hc]]];
    cbn [App.agent_system App.current_url App.current_analysis App.screen].
  - apply bool_decide_eq_true in He.
    eexists [_]. split; [reflexivity|]. split; [reflexivity|].
    rewrite He. intros [|]; discriminate.
  - eexists [_; _]. split; [reflexivity|]. split; [reflexivity|].
    intros _. reflexivity.
  - eexists [_; _]. split; [reflexivity|]. split; [reflexivity|].
    intros _. reflexivity.
  - apply bool_decide_eq_false in Hs, Hg.
    eexists [_; _; _]. split; [reflexivity|]. split; [reflexivity|].
    intros [|]; contradiction.
  - apply bool_decide_eq_false in Hs, Hg.
    eexists [_]. split; [reflexivity|]. split; [reflexivity|].
    intros [|]; contradiction.
Qed.

End Page.

Section PageRuns.
Context `{Web} `{LLM} `{ExceptionTypes}.

Lemma consistent_after_analysis (url : string) (r : dict) (w : World)
    (scr : list Ui) :
  String.prefix "https://www.gutenberg.org" url = true ->
  r !! "error" = None -> r !! "url" = Some url ->
  consistent (App.mk (mkState (mkSession (Some url) (Some r)) w)
                (Some url) (Some r) scr).
Proof.
  intros Hp Herr Hurl. unfold consistent. cbn.
  split; [reflexivity|]. split; [reflexivity|]. exists url. auto.
Qed.

Lemma consistent_redraw (app : App.t) (w : World) (scr : list Ui) :
  consistent app ->
  consistent (App.mk (mkState (session (App.agent_system app)) w)
                (App.current_url app) (App.current_analysis app) scr).
Proof. intros Hc. exact Hc. Qed.

Lemma consistent_same (app : App.t) (scr : list Ui) :
  consistent app ->
  consistent (App.mk (App.agent_system app) (App.current_url app)
                (App.current_analysis app) scr).
Proof. intros Hc. exact Hc. Qed.

(** One run of the script keeps the page consistent. *)
Lemma run_consistent (inp : Inputs) (app : App.t) :
  consistent app -> consistent (Streamlit.run inp app).
Proof.
  intros Hc.
  unfold Streamlit.run, Streamlit.script, bind, Streamlit.st,
    Streamlit.get_state, ret.
  cbn [App.agent_system App.current_url App.current_analysis App.screen].
  destruct (analyze_clicked inp).
  - match goal with
    | |- context [Streamlit.analyze_url ?u ?a] =>
        destruct (app_analyze_url_eq u a) as [Hbad Hgood];
        destruct (String.prefix "https://www.gutenberg.org" u) eqn:Hp;
        [ destruct (Hgood eq_refl) as (r & w' & Hr & Herr & Hurl & ->)
        | rewrite (Hbad eq_refl) ]
    end;
    cbn [App.agent_system App.current_url App.current_analysis App.screen].
    + assert (dict_truthy (Some r) = true) as ->.
      { unfold dict_truthy. rewrite bool_decide_eq_false_2; [reflexivity|].
        intros ->. rewrite lookup_empty in Hurl. discriminate. }
      match goal with
      | |- context [Streamlit.display_analysis_info ?a ?ap] =>
          destruct (display_analysis_info_eq a ap) as (scr & ->)
      end.
      cbn [App.agent_system App.current_url App.current_analysis App.screen].
      destruct (process_clicked inp);
        [destruct (negb (Py.truthy (user_query inp)))|];
        try match goal with
        | |- context [Streamlit.process_user_query ?q ?c ?ap] =>
            destruct (app_process_user_query_eq q c ap)
              as (d & w'' & shown & _ & -> & _)
        end;
        cbn [snd App.agent_system App.current_url App.current_analysis
               App.screen session];
        apply consistent_after_analysis; assumption.
    + destruct (dict_truthy (App.current_analysis app)).
      * match goal with
        | |- context [Streamlit.display_analysis_info ?a ?ap] =>
            destruct (display_analysis_info_eq a ap) as (scr & ->)
        end.
        cbn [App.agent_system App.current_url App.current_analysis App.screen].
        destruct (process_clicked inp);
          [destruct (negb (Py.truthy (user_query inp)))|];
          try match goal with
          | |- context [Streamlit.process_user_query ?q ?c ?ap] =>
              destruct (app_process_user_query_eq q c ap)
                as (d & w'' & shown & _ & -> & _)
          end;
          cbn [snd App.agent_system App.current_url App.current_analysis
                 App.screen session];
          first [apply consistent_same; exact Hc
                |apply (consistent_redraw app); exact Hc].
      * cbn [snd]. apply consistent_same. exact Hc.
  - cbn [App.agent_system App.current_url App.current_analysis App.screen].
    destruct (dict_truthy (App.current_analysis app)).
    + match goal with
      | |- context [Streamlit.display_analysis_info ?a ?ap] =>
          destruct (display_analysis_info_eq a ap) as (scr & ->)
      end.
      cbn [App.agent_system App.current_url App.current_analysis App.screen].
      destruct (process_clicked inp);
        [destruct (negb (Py.truthy (user_query inp)))|];
        try match goal with
        | |- context [Streamlit.process_user_query ?q ?c ?ap] =>
            destruct (app_process_user_query_eq q c ap)
              as (d & w'' & shown & _ & -> & _)
        end;
        cbn [snd App.agent_system App.current_url App.current_analysis
               App.screen session];
        first [apply consistent_same; exact Hc
              |apply (consistent_redraw app); exact Hc].
    + cbn [snd]. apply consistent_same. exact Hc.
Qed.

End PageRuns.

Lemma reachable_consistent `{Web} `{LLM} `{ExceptionTypes} (app : App.t) :
  Streamlit.reachable app -> consistent app.
Proof.
  intros Hr. induction Hr as [w|inp app _ IH].
  - unfold consistent. cbn. auto.
  - apply run_consistent. exact IH.
Qed.

(** X19: in every state the page can reach, its own copy of the
    current URL and analysis equals what the agent system stores; a
    stored analysis is a record without [error] key whose [url] is the
    stored URL, and that URL starts with
    "https://www.gutenberg.org".  So the page never passes the router
    a URL other than the one the agent has cached. *)
Theorem X19_page_and_agent_agree `{Web} `{LLM} `{ExceptionTypes} (app : App.t) :
  Streamlit.reachable app ->
  App.current_url app = Self.current_url (session (App.agent_system app)) /\
  App.current_analysis app =
    Self.current_analysis (session (App.agent_system app)) /\
  match App.current_analysis app with
  | Some r =>
      exists url,
        App.current_url app = Some url /\
        String.prefix "https://www.gutenberg.org" url = true /\
        r !! "error" = None /\ r !! "url" = Some url
  | None => App.current_url app = None
  end.
Proof.
  intros Hr. change (consistent app).
  induction Hr as [w|inp app _ IH].
  - unfold consistent. cbn. auto.
  - apply run_consistent. exact IH.
Qed.

Section PageQueries.
Context `{Web} `{LLM} `{ExceptionTypes}.

(** A summary or genre query about the cached book, asked with the
    cached URL, is answered by the agent from the cache. *)
Lemma cached_query_answer (query url : string) (r : dict) (s : State) :
  session s = mkSession (Some url) (Some r) ->
  Py.truthy url = true -> dict_truthy (Some r) = true ->
  spec_intent query = "summary" \/ spec_intent query = "genre" ->
  AgentSystem.process_user_query query (Some url) s =
    (Ret {[ "type" := spec_intent query;
            "title" := dict_get r "title" "Unknown Title";
            "content" :=
              if bool_decide (spec_intent query = "summary")
              then dict_get r "summary" "Unable to generate summary"
              else dict_get r "genre" "Unable to classify genre" ]}, s).
Proof.
  intros Hs Hu Hr Hint.
  assert (AgentSystem._extract_url_reference query (Some url) s = (Ret (Some url), s))
    as Hres.
  { rewrite extract_url_reference_eq. cbn [Py.truthy_opt]. rewrite Hu. reflexivity. }
  assert (AgentSystem.title_of (session s) = dict_get r "title" "Unknown Title")
    as Htitle.
  { unfold AgentSystem.title_of. rewrite Hs. cbn [Self.current_analysis].
    rewrite Hr. reflexivity. }
  unfold spec_intent in *.
  destruct (Py.str_in "summarize" (Py.lower query)
            || Py.str_in "summary" (Py.lower query)) eqn:Hsum.
  - rewrite (process_user_query_summary _ _ _ _ Hres Hu Hsum
               (dict_get r "summary" "Unable to generate summary") s).
    + rewrite Htitle. reflexivity.
    + rewrite get_book_summary_hit; rewrite Hs; [reflexivity|reflexivity|exact Hr].
  - destruct (Py.str_in "genre" (Py.lower query)
              || Py.str_in "classify" (Py.lower query)) eqn:Hgen.
    + rewrite (process_user_query_genre _ _ _ _ Hres Hu Hsum Hgen
                 (dict_get r "genre" "Unable to classify genre") s).
      * rewrite Htitle. reflexivity.
      * rewrite classify_genre_hit; rewrite Hs; [reflexivity|reflexivity|exact Hr].
    + destruct Hint; discriminate.
Qed.

(** X20: on the page, a summary or genre query needs no request.  In
    any reachable state with an analysed book, a run in which only
    "Process Query" is pressed, with a non-empty summary- or
    genre-intent query, leaves the whole session state as it was (no
    page is requested and no prompt is sent) and shows the summary,
    respectively the genre, of the stored record under the heading
    that names its title. *)
Theorem X20_page_answers_from_cache (inp : Inputs) (app : App.t) (r : dict) :
  Streamlit.reachable app ->
  App.current_analysis app = Some r ->
  analyze_clicked inp = false ->
  process_clicked inp = true ->
  Py.truthy (user_query inp) = true ->
  spec_intent (user_query inp) = "summary" \/
  spec_intent (user_query inp) = "genre" ->
  App.agent_system (Streamlit.run inp app) = App.agent_system app /\
  App.current_url (Streamlit.run inp app) = App.current_url app /\
  App.current_analysis (Streamlit.run inp app) = Some r /\
  In (UiWrite (if bool_decide (spec_intent (user_query inp) = "summary")
               then dict_get r "summary" "Unable to generate summary"
               else dict_get r "genre" "Unable to classify genre"))
     (App.screen (Streamlit.run inp app)) /\
  In (UiSubheader ((if bool_decide (spec_intent (user_query inp) = "summary")
                    then "Summary of '" else "Genre Classification for '")
                   +:+ dict_get r "title" "Unknown Title" +:+ "'"))
     (App.screen (Streamlit.run inp app)).
Proof.
  intros Hreach Han Hac Hpc Hq Hint.
  destruct (reachable_consistent app Hreach) as (Hcu & Hcan & Hrec).
  rewrite Han in Hrec. destruct Hrec as (url & Hurl & Hp & Herr & Hru).
  assert (Py.truthy url = true) as Hu.
  { apply gutenberg_prefix in Hp. destruct url; [discriminate Hp|reflexivity]. }
  assert (dict_truthy (Some r) = true) as Hr.
  { unfold dict_truthy. rewrite bool_decide_eq_false_2; [reflexivity|].
    intros ->. rewrite lookup_empty in Hru. discriminate. }
  assert (session (App.agent_system app) = mkSession (Some url) (Some r)) as Hs.
  { destruct (session (App.agent_system app)) as [u a]. cbn in Hcu, Hcan.
    congruence. }
  pose proof (cached_query_answer (user_query inp) url r (App.agent_system app)
                Hs Hu Hr Hint) as Hpq.
  unfold Streamlit.run, Streamlit.script, bind, Streamlit.st,
    Streamlit.get_state, ret.
  rewrite Hac, Hpc, Hq, Han, Hurl.
  cbn [App.agent_system App.current_url App.current_analysis App.screen negb].
  rewrite Hr.
  match goal with
  | |- context [Streamlit.display_analysis_info ?a ?ap] =>
      destruct (display_analysis_info_eq a ap) as (scr & ->)
  end.
  cbn [App.agent_system App.current_url App.current_analysis App.screen].
  match goal with
  | |- context [Streamlit.process_user_query ?q ?c ?ap] =>
      destruct (app_process_user_query_eq q c ap)
        as (d & w' & shown & Hd & -> & Hshown)
  end.
  cbn [App.agent_system App.current_url App.current_analysis App.screen] in Hd.
  rewrite Hpq in Hd. injection Hd as <- Hag.
  cbn [snd App.agent_system App.current_url App.current_analysis App.screen].
  assert (dict_get {[ "type" := spec_intent (user_query inp);
                      "title" := dict_get r "title" "Unknown Title";
                      "content" :=
                        if bool_decide (spec_intent (user_query inp) = "summary")
                        then dict_get r "summary" "Unable to generate summary"
                        else dict_get r "genre" "Unable to classify genre" ]}
            "type" "unknown" = spec_intent (user_query inp)) as Hty
    by reflexivity.
  rewrite Hty in Hshown. specialize (Hshown Hint). subst shown.
  split; [symmetry; exact Hag|]. split; [reflexivity|]. split; [reflexivity|].
  split.
  - right. right. right. left. reflexivity.
  - right. right. right. right. left. reflexivity.
Qed.

End PageQueries.

Lemma X20_page_answers_from_cache_witness :
  let web := Stub.web_const (Stub.book_page "Alice was beginning to get very tired") in
  let app := @Streamlit.run web Stub.llm_ok Fixture.no_type_errors
               (mkInputs Stub.alice true "" false)
               (Streamlit.init Stub.w0) in
  let inp := mkInputs "" false "Summarize this book" true in
  App.agent_system
    (@Streamlit.run web Stub.llm_ok Fixture.no_type_errors inp app) =
  App.agent_system app /\
  List.length (http_log (world (App.agent_system app))) = 3%nat.
Proof.
  intros web app inp.
  destruct (@X20_page_answers_from_cache web Stub.llm_ok Fixture.no_type_errors
              inp app (default ∅ (App.current_analysis app)))
    as (Hag & _).
  - apply Streamlit.reachable_run, Streamlit.reachable_init.
  - vm_compute. reflexivity.
  - reflexivity.
  - reflexivity.
  - reflexivity.
  - left. reflexivity.
  - split; [exact Hag|]. vm_compute. reflexivity.
Defined.

Lemma X19_page_and_agent_agree_witness :
  let app := @Streamlit.run
               (Stub.web_const (Stub.book_page "Alice was beginning to get very tired"))
               Stub.llm_ok Fixture.no_type_errors
               (mkInputs Stub.alice true "" false)
               (Streamlit.init Stub.w0) in
  App.current_url app = Self.current_url (session (App.agent_system app)) /\
  App.current_url app = Some Stub.alice.
Proof.
  intros app.
  destruct (@X19_page_and_agent_agree
              (Stub.web_const (Stub.book_page "Alice was beginning to get very tired"))
              Stub.llm_ok Fixture.no_type_errors app) as (Hcu & _).
  - apply Streamlit.reachable_run, Streamlit.reachable_init.
  - split; [exact Hcu|]. vm_compute. reflexivity.
Defined.

(** * Failure of the Gemini API

    The analyzer and the agent are built with the Gemini wrapper
    ([get_gemini_llm]), whose [_call] turns every failure of the API
    into its result. *)

Section ApiFailure.
Context `{Web} `{GenAI}.





End ApiFailure.




(** With every request failing, both fields hold the wrapper's error
    text and the content keeps all its 5000 characters. *)
Example gemini_failure_keeps_whole_sample :
  let r := value_or ∅ (fst (@URLAnalyzer.analyze_url
                              (Stub.web_const
                                 (Stub.book_page (Stub.str_repeat "a" (Z.to_nat 5000))))
                              (@GeminiLLM.gemini_llm Stub.genai_down)
                              Stub.alice Stub.w0)) in
  r !! "summary" = Some "Error calling Gemini API: 503 unavailable" /\
  r !! "genre" = Some "Error calling Gemini API: 503 unavailable" /\
  Py.len (dict_get r "content" "") = 5000.
Proof. vm_compute. repeat split; reflexivity. Qed.

(** C7 (the code departs from the claim): in the chat path a failure
    of the Gemini API never reaches the [except] branch that holds the
    retry.  Whatever the length of the content, when the API call for
    the chat prompt raises, exactly that one prompt has been sent and
    the answer is the wrapper's text "Error calling Gemini API: "
    followed by the message: no retry with the first 8000 characters
    is made, and the answer is neither the length apology nor "Error
    processing your query about '<title>': <message>". *)
Theorem C7_api_failure_is_not_retried `{Web} `{GenAI}
    (url query : string) (analysis : dict) (w w1 : World) (e : exn) :
  @URLAgent.analyze_url _ GeminiLLM.gemini_llm url w = (Ret analysis, w1) ->
  dict_has analysis "error" = false ->
  Py.truthy (dict_get analysis "content" "") = true ->
  Py.truthy gemini_api_key = true ->
  generate_content (llm_log w1)
    (URLAgent.chat_prompt (dict_get analysis "title" "Unknown Title")
       (dict_get analysis "author" "Unknown") query
       (dict_get analysis "content" "")) = Raise e ->
  @URLAgent.chat_with_url _ GeminiLLM.gemini_llm url query w =
    (Ret ("Error calling Gemini API: " +:+ e),
     mkWorld (http_log w1)
       (URLAgent.chat_prompt (dict_get analysis "title" "Unknown Title")
          (dict_get analysis "author" "Unknown") query
          (dict_get analysis "content" "") :: llm_log w1)
       (("Error calling Gemini API: " +:+ e) :: stdout w1)).
Proof.
  intros Han Herr Htr Hkey He.
  rewrite (@chat_with_url_invoke _ GeminiLLM.gemini_llm url query analysis
             w w1 w1 Han Herr Htr).
  - unfold try_except. cbn [invoke GeminiLLM.gemini_llm].
    rewrite (gemini_call_raise _ w1 e He). reflexivity.
  - cbn [get_llm GeminiLLM.gemini_llm]. unfold GeminiLLM.__init__.
    rewrite Hkey. reflexivity.
Qed.

Lemma C7_api_failure_is_not_retried_witness :
  let web := Stub.web_const (Stub.book_page (Stub.str_repeat "a" (Z.to_nat 9000))) in
  let llm := @GeminiLLM.gemini_llm Fixture.genai_chat_fails in
  let analysis :=
    value_or ∅ (fst (@URLAgent.analyze_url web llm Stub.alice Stub.w0)) in
  Py.len (dict_get analysis "content" "") = 9000 /\
  exists w',
    @URLAgent.chat_with_url web llm Stub.alice "Who is the main character?"
      Stub.w0 =
    (Ret "Error calling Gemini API: 503 unavailable", w') /\
    List.length (llm_log w') = 3%nat.
Proof.
  intros web llm analysis.
  split; [vm_compute; reflexivity|].
  set (a := @URLAgent.analyze_url web llm Stub.alice Stub.w0).
  eexists. split.
  - apply (@C7_api_failure_is_not_retried web Fixture.genai_chat_fails
             Stub.alice "Who is the main character?" analysis Stub.w0 (snd a)
             "503 unavailable").
    + vm_compute. reflexivity.
    + vm_compute. reflexivity.
    + vm_compute. reflexivity.
    + reflexivity.
    + vm_compute. reflexivity.
  - vm_compute. reflexivity.
Defined.
